(** * Weather dashboard (app.py): a shallow embedding and its properties

    The dashboard is one Python module.  Its computational core is
    - [categorize_temperature], a pure bucket function on a nullable float;
    - the pandas pipeline of the "Charts" tab (group means by city and date);
    - the pandas pipeline of the "Filters" tab (four [isin] masks, three metrics);
    - the connection parameters read from the environment;
    - three query functions wrapped in [st.cache_data].

    Temperatures are IEEE 754 binary64 values, modelled by [spec_float] with
    precision 53 and maximal exponent 1024.  Python exceptions are modelled by
    the [Raise] constructor of [result].  The warehouse and the process-wide
    cache are modelled by an explicit state, threaded through a small
    state-and-exception monad. *)

From Stdlib Require Import ZArith List String Ascii Bool Lia.
From Stdlib Require Import Sorting.Sorted Sorting.Permutation.
From Stdlib Require Import Floats.SpecFloat Numbers.DecimalString.
From stdpp Require Import gmap strings.
Import ListNotations.

Local Open Scope string_scope.
Local Open Scope list_scope.

(* ===================================================================== *)
(** * Part I: definitions                                                 *)
(* ===================================================================== *)

(** ** Python exceptions and results *)

Inductive exn : Type :=
  | TypeError
  | ValueError
  | OperationalError
  | DatabaseError.

Inductive result (A : Type) : Type :=
  | Ok (a : A)
  | Raise (e : exn).

Arguments Ok {A} a.
Arguments Raise {A} e.

Definition rbind {A B : Type} (r : result A) (k : A -> result B) : result B :=
  match r with
  | Ok a => k a
  | Raise e => Raise e
  end.

Notation "'let!' x ':=' c1 'in' c2" := (rbind c1 (fun x => c2))
  (at level 10, x name, c1 at level 100, c2 at level 200).

(** ** binary64 values *)

Definition prec : Z := 53.
Definition emax : Z := 1024.

Definition is_nan (f : spec_float) : bool :=
  match f with
  | S754_nan => true
  | _ => false
  end.

Definition is_finite (f : spec_float) : bool :=
  match f with
  | S754_zero _ | S754_finite _ _ _ => true
  | _ => false
  end.

(** [float(n)] for a Python integer: rounded to nearest, ties to even. *)
Definition float_of_int (n : Z) : spec_float :=
  binary_normalize prec emax n 0 false.

(** A decimal literal [n / 10^k], such as [9.999 = 9999 / 10^3]: the nearest
    binary64 value, which is the correctly rounded quotient of two integers
    that are themselves exact in binary64. *)
Definition float_of_decimal (n : Z) (k : nat) : spec_float :=
  SFdiv prec emax (float_of_int n) (float_of_int (10 ^ Z.of_nat k)).

(** ** Cells of the [temp] column *)

Inductive pyval : Type :=
  | PyNone
  | PyFloat (f : spec_float).

(** [pd.isnull]: [None] and NaN are null, every other float is not
    (infinities included). *)
Definition pd_isnull (v : pyval) : bool :=
  match v with
  | PyNone => true
  | PyFloat f => is_nan f
  end.

(** [temp < n] with an integer literal [n].  Python compares a float with an
    integer exactly; for the literals of this program ([10], [20], [30]) the
    integer is exact in binary64, so this is the binary64 comparison.
    Comparing [None] with an integer raises [TypeError]. *)
Definition py_lt_int (temp : pyval) (n : Z) : result bool :=
  match temp with
  | PyNone => Raise TypeError
  | PyFloat f => Ok (SFltb f (float_of_int n))
  end.

(** [n <= temp]. *)
Definition py_int_le (n : Z) (temp : pyval) : result bool :=
  match temp with
  | PyNone => Raise TypeError
  | PyFloat f => Ok (SFleb (float_of_int n) f)
  end.

(** The chained comparison [lo <= temp < hi]: [lo <= temp and temp < hi],
    the second comparison evaluated only when the first holds. *)
Definition py_between (lo : Z) (temp : pyval) (hi : Z) : result bool :=
  let! b := py_int_le lo temp in
  if b then py_lt_int temp hi else Ok false.

(** The value of a float compared with an integer exactly, with no
    rounding of either side: [value f < n].  A finite float has the value
    [(-1)^s * m * 2^e]. *)
Definition exact_lt_int (f : spec_float) (n : Z) : bool :=
  match f with
  | S754_nan => false
  | S754_infinity s => s
  | S754_zero _ => (0 <? n)%Z
  | S754_finite s m e =>
      let v := if s then Zneg m else Zpos m in
      if (0 <=? e)%Z then (v * 2 ^ e <? n)%Z else (v <? n * 2 ^ (- e))%Z
  end.

(** ** The categorizer (app.py, lines 65-75) *)

Definition Unknown : string := "Unknown".
Definition Below10 : string := "<10°C".
Definition From10To20 : string := "10–20°C".
Definition From20To30 : string := "20–30°C".
Definition AtLeast30 : string := "≥30°C".

Definition categorize_temperature (temp : pyval) : result string :=
  if pd_isnull temp then Ok Unknown
  else
    let! c1 := py_lt_int temp 10 in
    if c1 then Ok Below10
    else
      let! c2 := py_between 10 temp 20 in
      if c2 then Ok From10To20
      else
        let! c3 := py_between 20 temp 30 in
        if c3 then Ok From20To30
        else Ok AtLeast30.

(** The five buckets, and the position of a known bucket in the ordering
    [<10°C], [10–20°C], [20–30°C], [≥30°C]. *)
Definition buckets : list string :=
  [Below10; From10To20; From20To30; AtLeast30; Unknown].

Definition bucket_rank (b : string) : option nat :=
  if String.eqb b Below10 then Some 0%nat
  else if String.eqb b From10To20 then Some 1%nat
  else if String.eqb b From20To30 then Some 2%nat
  else if String.eqb b AtLeast30 then Some 3%nat
  else None.

(** ** The weather fact frame *)

(** One row of [load_weather_data]'s result.  [full_date] is a
    [datetime.date], represented by its proleptic ordinal. *)
Record Observation : Type := mkObservation {
  temperature_id : Z;
  temp : pyval;
  full_date : Z;
  city_name : string;
  country_name : string;
  condition_name : string
}.

(** A row after [df["temp_range"] = df["temp"].apply(categorize_temperature)]
    (app.py, lines 99 and 128). *)
Record Row : Type := mkRow {
  obs : Observation;
  temp_range : string
}.

Fixpoint add_temp_range (df : list Observation) : result (list Row) :=
  match df with
  | [] => Ok []
  | o :: rest =>
      let! b := categorize_temperature (temp o) in
      let! rows := add_temp_range rest in
      Ok (mkRow o b :: rows)
  end.

(** ** Column helpers of pandas *)

(** [Series.isin(values)], one cell. *)
Definition isin {K : Type} (eqb : K -> K -> bool) (x : K) (values : list K) : bool :=
  existsb (eqb x) values.

(** [Series.unique()]: distinct values in order of first appearance. *)
Fixpoint unique_from {K : Type} (eqb : K -> K -> bool) (seen l : list K) : list K :=
  match l with
  | [] => []
  | x :: rest =>
      if isin eqb x seen then unique_from eqb seen rest
      else x :: unique_from eqb (x :: seen) rest
  end.

Definition unique {K : Type} (eqb : K -> K -> bool) (l : list K) : list K :=
  unique_from eqb [] l.

(** [Series.nunique()]. *)
Definition nunique (l : list string) : nat :=
  length (unique String.eqb l).

(** The non-null cells of a float column. *)
Definition dropna (xs : list pyval) : list spec_float :=
  flat_map (fun v => match v with
                     | PyNone => []
                     | PyFloat f => if is_nan f then [] else [f]
                     end) xs.

(** *** The group mean

    [SeriesGroupBy.mean()] on a float64 column runs pandas' [group_mean]
    kernel.  It walks the rows once; a null cell is skipped; any other cell
    is counted and added to its group's running sum [sumx] with Kahan's
    compensation:

      y = val - compensation;  t = sumx + y;
      compensation = t - sumx - y;   (0.0 when that is NaN, as it is
      sumx = t                        after an infinite cell)

    The mean of a group is [sumx / nobs], NaN for a group without a
    non-null cell.  Every operation is a binary64 operation. *)
Definition kahan_step (acc : spec_float * spec_float) (val : spec_float)
    : spec_float * spec_float :=
  let '(sumx, compensation) := acc in
  let y := SFsub prec emax val compensation in
  let t := SFadd prec emax sumx y in
  let c := SFsub prec emax (SFsub prec emax t sumx) y in
  (t, if is_nan c then S754_zero false else c).

Definition kahan_sum (vals : list spec_float) : spec_float :=
  fst (fold_left kahan_step vals (S754_zero false, S754_zero false)).

Definition mean_of_group (xs : list pyval) : spec_float :=
  match dropna xs with
  | [] => S754_nan
  | vals => SFdiv prec emax (kahan_sum vals) (float_of_int (Z.of_nat (length vals)))
  end.

(** *** [Series.mean()]

    With the default [skipna=True] pandas' [nanmean] replaces the null cells
    of the column by 0.0, sums the column with numpy's [ndarray.sum] and
    divides by the number of non-null cells; the result is NaN when there is
    none.  numpy sums a contiguous float64 array by pairwise summation
    ([DOUBLE_pairwise_sum]): fewer than 8 cells are added left to right;
    up to 128 cells are added in eight interleaved lanes that are then
    combined as a balanced tree, the cells after the last full block of
    eight being added one by one; a longer array is split in two parts, the
    first a multiple of eight cells long, and the two sums are added.  The
    reduction adds that sum to the additive identity 0.0.  (This is pandas
    without the optional bottleneck package.) *)
Definition fillna_zero (xs : list pyval) : list spec_float :=
  List.map (fun v => match v with
                     | PyNone => S754_zero false
                     | PyFloat f => if is_nan f then S754_zero false else f
                     end) xs.

(** [for (...) res += a[i]]. *)
Definition sum_loop (res : spec_float) (a : list spec_float) : spec_float :=
  fold_left (SFadd prec emax) a res.

(** [r[j] += a[i + j]] for the eight lanes [j]. *)
Fixpoint add_lanes (r a : list spec_float) : list spec_float :=
  match r, a with
  | x :: r', y :: a' => SFadd prec emax x y :: add_lanes r' a'
  | _, _ => r
  end.

(** The unrolled loop over the full blocks of eight that follow the first:
    the lanes after [blocks] blocks, and the cells not yet added. *)
Fixpoint unrolled_blocks (blocks : nat) (r a : list spec_float)
    : list spec_float * list spec_float :=
  match blocks with
  | O => (r, a)
  | S b => unrolled_blocks b (add_lanes r (firstn 8 a)) (skipn 8 a)
  end.

(** [((r[0] + r[1]) + (r[2] + r[3])) + ((r[4] + r[5]) + (r[6] + r[7]))];
    there are always eight lanes ([pairwise_block] starts from the first
    eight cells of at least eight). *)
Definition reduce_lanes (r : list spec_float) : spec_float :=
  match r with
  | [r0; r1; r2; r3; r4; r5; r6; r7] =>
      SFadd prec emax
        (SFadd prec emax (SFadd prec emax r0 r1) (SFadd prec emax r2 r3))
        (SFadd prec emax (SFadd prec emax r4 r5) (SFadd prec emax r6 r7))
  | _ => sum_loop (S754_zero false) r
  end.

(** The branch for [8 <= n <= 128]. *)
Definition pairwise_block (a : list spec_float) : spec_float :=
  let '(r, rest) := unrolled_blocks (length a / 8 - 1) (firstn 8 a) (skipn 8 a) in
  sum_loop (reduce_lanes r) rest.

(** The recursion halves the array, so [fuel] at least the length of the
    array is never used up ([pairwise_sum_fuel] in Part II). *)
Fixpoint pairwise_sum_rec (fuel : nat) (a : list spec_float) : spec_float :=
  let n := length a in
  if (n <? 8)%nat then sum_loop (S754_zero false) a
  else if (n <=? 128)%nat then pairwise_block a
  else
    match fuel with
    | O => sum_loop (S754_zero false) a
    | S fuel' =>
        let n2 := (n / 2 - (n / 2) mod 8)%nat in
        SFadd prec emax (pairwise_sum_rec fuel' (firstn n2 a))
                        (pairwise_sum_rec fuel' (skipn n2 a))
    end.

Definition pairwise_sum (a : list spec_float) : spec_float :=
  pairwise_sum_rec (length a) a.

(** [ndarray.sum()]. *)
Definition ndarray_sum (a : list spec_float) : spec_float :=
  SFadd prec emax (S754_zero false) (pairwise_sum a).

Definition mean (xs : list pyval) : spec_float :=
  match length (dropna xs) with
  | O => S754_nan
  | count =>
      SFdiv prec emax (ndarray_sum (fillna_zero xs)) (float_of_int (Z.of_nat count))
  end.

(** A stable insertion sort; [leb x y] reads "x may come before y". *)
Fixpoint insert_sorted {A : Type} (leb : A -> A -> bool) (x : A) (l : list A) : list A :=
  match l with
  | [] => [x]
  | y :: rest => if leb x y then x :: l else y :: insert_sorted leb x rest
  end.

Definition sort {A : Type} (leb : A -> A -> bool) (l : list A) : list A :=
  fold_right (insert_sorted leb) [] l.

(** [df.groupby(key)["temp"].mean().reset_index()]: one row per distinct key,
    keys in ascending order, each with the mean of its group's [temp]. *)
Definition groupby_mean {K : Type} (eqb leb : K -> K -> bool)
    (key : Row -> K) (df : list Row) : list (K * spec_float) :=
  List.map
    (fun k => (k, mean_of_group (List.map (fun r => temp (obs r))
                                   (List.filter (fun r => eqb (key r) k) df))))
    (sort leb (unique eqb (List.map key df))).

(** [.sort_values(by="temp", ascending=False)]: descending by value, rows
    whose value is NaN last ([na_position="last"]). *)
Definition sort_values_desc {K : Type} (l : list (K * spec_float)) : list (K * spec_float) :=
  sort (fun a b => SFleb (snd b) (snd a))
       (List.filter (fun p => negb (is_nan (snd p))) l)
  ++ List.filter (fun p => is_nan (snd p)) l.

(** ** The "Charts" tab (app.py, lines 102-107 and 114-118)

    The two frames are what [px.bar] (line 108) and [px.line] (line 119) are
    called with: the program does nothing else to them. *)

Definition temp_by_city (df : list Row) : list (string * spec_float) :=
  sort_values_desc
    (groupby_mean String.eqb String.leb (fun r => city_name (obs r)) df).

Definition temp_over_time (df : list Row) : list (Z * spec_float) :=
  groupby_mean Z.eqb Z.leb (fun r => full_date (obs r)) df.

(** ** The "Filters" tab (app.py, lines 132-148) *)

(** A multiselect widget: its default on first render, afterwards whatever
    the user has selected. *)
Definition multiselect (options default : list string)
    (state : option (list string)) : list string :=
  match state with
  | None => default
  | Some selection => selection
  end.

Record Widgets : Type := mkWidgets {
  w_condition : option (list string);
  w_country : option (list string);
  w_city : option (list string);
  w_ranges : option (list string)
}.

Definition first_render : Widgets := mkWidgets None None None None.

Definition filtered_df (df : list Row)
    (selected_condition selected_country selected_city selected_ranges : list string)
    : list Row :=
  List.filter
    (fun r =>
       isin String.eqb (condition_name (obs r)) selected_condition &&
       isin String.eqb (country_name (obs r)) selected_country &&
       isin String.eqb (city_name (obs r)) selected_city &&
       isin String.eqb (temp_range r) selected_ranges)
    df.

(** *** [f"{x:.2f}"] *)

(** The integer nearest to [n / d], ties to even ([0 <= n], [0 < d]). *)
Definition round_half_even (n d : Z) : Z :=
  let q := (n / d)%Z in
  match (2 * (n mod d) ?= d)%Z with
  | Lt => q
  | Gt => (q + 1)%Z
  | Eq => if Z.even q then q else (q + 1)%Z
  end.

(** [m * 2^e * 100], correctly rounded to an integer. *)
Definition hundredths (m : positive) (e : Z) : Z :=
  if (0 <=? e)%Z then (Zpos m * 2 ^ e * 100)%Z
  else round_half_even (Zpos m * 100) (2 ^ (- e)).

Definition decimal (n : Z) : string :=
  DecimalString.NilZero.string_of_uint (N.to_uint (Z.to_N n)).

Definition two_digits (n : Z) : string :=
  decimal (n / 10) +:+ decimal (n mod 10).

Definition format_2f (x : spec_float) : string :=
  match x with
  | S754_nan => "nan"
  | S754_infinity s => if s then "-inf" else "inf"
  | S754_zero s => (if s then "-" else "") +:+ "0.00"
  | S754_finite s m e =>
      let h := hundredths m e in
      (if s then "-" else "") +:+ decimal (h / 100) +:+ "." +:+ two_digits (h mod 100)
  end.

(** The three summary metrics: distinct cities, rows, mean temperature. *)
Definition summary_metrics (f : list Row) : nat * nat * string :=
  (nunique (List.map (fun r => city_name (obs r)) f),
   length f,
   match f with
   | [] => "–"
   | _ => format_2f (mean (List.map (fun r => temp (obs r)) f))
   end).

Definition tab_filters (loaded : list Observation) (w : Widgets)
    : result (list Row * (nat * nat * string)) :=
  let! df := add_temp_range loaded in
  let conditions := unique String.eqb (List.map (fun r => condition_name (obs r)) df) in
  let countries := unique String.eqb (List.map (fun r => country_name (obs r)) df) in
  let cities := unique String.eqb (List.map (fun r => city_name (obs r)) df) in
  let ranges := unique String.eqb (List.map temp_range df) in
  let selected_condition := multiselect conditions conditions (w_condition w) in
  let selected_country := multiselect countries countries (w_country w) in
  let selected_city := multiselect cities cities (w_city w) in
  let selected_ranges := multiselect ranges ranges (w_ranges w) in
  let f := filtered_df df selected_condition selected_country selected_city selected_ranges in
  Ok (f, summary_metrics f).

(** A metric string of the shape [-?[0-9]+.[0-9][0-9]]. *)
Definition is_digit (c : ascii) : bool :=
  (48 <=? nat_of_ascii c)%nat && (nat_of_ascii c <=? 57)%nat.

Fixpoint digits_point_two (s : string) (seen_digit : bool) : bool :=
  match s with
  | EmptyString => false
  | String c rest =>
      if Ascii.eqb c "."%char then
        seen_digit &&
        match rest with
        | String d1 (String d2 EmptyString) => is_digit d1 && is_digit d2
        | _ => false
        end
      else is_digit c && digits_point_two rest true
  end.

Definition two_decimals (s : string) : bool :=
  match s with
  | EmptyString => false
  | String c rest =>
      if Ascii.eqb c "-"%char then digits_point_two rest false
      else digits_point_two s false
  end.
(** ** Connection parameters (app.py, lines 15-21) *)

Record DBConfig : Type := mkDBConfig {
  host : option string;
  port : Z;
  user : option string;
  password : option string;
  dbname : option string
}.

Section Config.

(** Python's [int] on a string: the integer, or [None] where [int] raises
    [ValueError]. *)
Variable int_of_str : string -> option Z.

(** [os.getenv(name)] is the lookup [env !! name]: [None] when the variable
    is not set.  [env] is the process environment after [load_dotenv()]. *)
Definition getenv (env : gmap string string) (name : string) : option string :=
  env !! name.

(** [int(os.getenv('DB_PORT', 5432))]. *)
Definition getenv_port (env : gmap string string) : result Z :=
  match getenv env "DB_PORT" with
  | None => Ok 5432%Z
  | Some s =>
      match int_of_str s with
      | Some n => Ok n
      | None => Raise ValueError
      end
  end.

Definition load_DB_CONFIG (env : gmap string string) : result DBConfig :=
  let h := getenv env "DB_HOST" in
  let! p := getenv_port env in
  let u := getenv env "DB_USER" in
  let pw := getenv env "DB_PASSWORD" in
  let db := getenv env "DB_NAME" in
  Ok (mkDBConfig h p u pw db).

End Config.

(** ** The warehouse, seen through psycopg2 *)

Inductive cell : Type :=
  | CNull
  | CInt (n : Z)
  | CFloat (f : spec_float)
  | CStr (s : string)
  | CDate (d : Z).

(** A result set: [cursor.fetchall()] or the frame of [pd.read_sql_query]. *)
Definition Table : Type := list (list cell).

(** What the program does to the warehouse, in order.  A connection is
    named by the instant at which it was opened. *)
Inductive event : Type :=
  | EvConnect (cfg : DBConfig)
  | EvExecute (conn : nat) (sql : string)
  | EvClose (conn : nat).

(** The warehouse is outside the program: at instant [t] it accepts or
    refuses a connection, and answers a statement with a result set or with
    an error.  Its answers may change from one instant to the next. *)
Record Warehouse : Type := mkWarehouse {
  accepts : nat -> DBConfig -> bool;
  answer : nat -> string -> option Table
}.

(** The state of the process: the events so far (oldest first), the
    connections that are open, and the entries of [st.cache_data], keyed by
    function name and argument tuple. *)
Record State : Type := mkState {
  trace : list event;
  open_conns : list nat;
  cache : gmap (string * list string) Table
}.

Definition initial_state : State := mkState [] [] ∅.

Definition M (A : Type) : Type := State -> result A * State.

Definition ret {A : Type} (a : A) : M A := fun s => (Ok a, s).

Definition bind {A B : Type} (m : M A) (k : A -> M B) : M B :=
  fun s =>
    match m s with
    | (Ok a, s') => k a s'
    | (Raise e, s') => (Raise e, s')
    end.

Notation "'do' x '<-' m ';' k" := (bind m (fun x => k))
  (at level 10, x name, m at level 100, k at level 200).

Definition now (s : State) : nat := length (trace s).

(** [psycopg2.connect] called with the entries of [DB_CONFIG] as keywords. *)
Definition connect (w : Warehouse) (cfg : DBConfig) : M nat :=
  fun s =>
    let t := now s in
    if accepts w t cfg
    then (Ok t, mkState (trace s ++ [EvConnect cfg]) (t :: open_conns s) (cache s))
    else (Raise OperationalError,
          mkState (trace s ++ [EvConnect cfg]) (open_conns s) (cache s)).

(** One statement on an open connection: [cursor.execute] followed by
    [fetchall], or [pd.read_sql_query]. *)
Definition execute (w : Warehouse) (conn : nat) (sql : string) : M Table :=
  fun s =>
    let s' := mkState (trace s ++ [EvExecute conn sql]) (open_conns s) (cache s) in
    match answer w (now s) sql with
    | Some rows => (Ok rows, s')
    | None => (Raise DatabaseError, s')
    end.

(** [conn.close()] *)
Definition close (conn : nat) : M unit :=
  fun s =>
    (Ok tt,
     mkState (trace s ++ [EvClose conn])
             (List.filter (fun c => negb (Nat.eqb c conn)) (open_conns s))
             (cache s)).

(** ** The three query functions, without their decorator *)

Definition sql_table_names : string :=
"
        SELECT table_schema, table_name
        FROM information_schema.tables
        WHERE table_schema NOT IN ('pg_catalog', 'information_schema')
        ORDER BY table_schema, table_name;
    ".

Definition dquote : string := String (ascii_of_nat 34) EmptyString.

Definition sql_table_data (schema table : string) : string :=
  "SELECT * FROM " +:+ dquote +:+ schema +:+ dquote +:+ "." +:+
  dquote +:+ table +:+ dquote +:+ " LIMIT 500".

Definition sql_weather : string :=
"
        SELECT
            f.temperature_id,
            f.temp,
            d.full_date,
            ci.city_name,
            co.country_name,
            cond.condition_name
        FROM fact.temperature f
        JOIN dim.date d ON f.date_id = d.date_id
        JOIN dim.city ci ON f.city_id = ci.city_id
        JOIN dim.country co ON ci.country_id = co.country_id
        JOIN dim.conditions cond ON f.condition_id = cond.condition_id;
    ".

(** The shape the three bodies share: connect, one statement, close,
    return.  There is no [try]/[finally] and no [with]: an exception from
    the statement leaves the function before [close]. *)
Definition query_body (w : Warehouse) (DB_CONFIG : DBConfig) (sql : string) : M Table :=
  do conn <- connect w DB_CONFIG;
  do rows <- execute w conn sql;
  do _ <- close conn;
  ret rows.

Definition get_table_names_body (w : Warehouse) (DB_CONFIG : DBConfig) : M Table :=
  query_body w DB_CONFIG sql_table_names.

Definition get_table_data_body (w : Warehouse) (DB_CONFIG : DBConfig)
    (schema table : string) : M Table :=
  query_body w DB_CONFIG (sql_table_data schema table).

Definition load_weather_data_body (w : Warehouse) (DB_CONFIG : DBConfig) : M Table :=
  query_body w DB_CONFIG sql_weather.

(** ** [@st.cache_data] *)

(** A hit returns the stored value (a copy, equal by value) without running
    the body.  A miss runs the body and stores its value; a body that raises
    stores nothing. *)
Definition cache_data (name : string) (args : list string) (body : M Table) : M Table :=
  fun s =>
    match cache s !! (name, args) with
    | Some v => (Ok v, s)
    | None =>
        match body s with
        | (Ok v, s') =>
            (Ok v, mkState (trace s') (open_conns s') (<[(name, args) := v]> (cache s')))
        | (Raise e, s') => (Raise e, s')
        end
    end.

Definition get_table_names (w : Warehouse) (DB_CONFIG : DBConfig) : M Table :=
  cache_data "get_table_names" [] (get_table_names_body w DB_CONFIG).

Definition get_table_data (w : Warehouse) (DB_CONFIG : DBConfig)
    (schema table : string) : M Table :=
  cache_data "get_table_data" [schema; table]
    (get_table_data_body w DB_CONFIG schema table).

Definition load_weather_data (w : Warehouse) (DB_CONFIG : DBConfig) : M Table :=
  cache_data "load_weather_data" [] (load_weather_data_body w DB_CONFIG).

(** A call of one of the three cached functions, with its arguments. *)
Inductive call : Type :=
  | GetTableNames
  | GetTableData (schema table : string)
  | LoadWeatherData.

Definition cache_key (c : call) : string * list string :=
  match c with
  | GetTableNames => ("get_table_names", [])
  | GetTableData schema table => ("get_table_data", [schema; table])
  | LoadWeatherData => ("load_weather_data", [])
  end.

Definition invoke (w : Warehouse) (DB_CONFIG : DBConfig) (c : call) : M Table :=
  match c with
  | GetTableNames => get_table_names w DB_CONFIG
  | GetTableData schema table => get_table_data w DB_CONFIG schema table
  | LoadWeatherData => load_weather_data w DB_CONFIG
  end.

(** The body a call runs on a cache miss. *)
Definition body_of (w : Warehouse) (DB_CONFIG : DBConfig) (c : call) : M Table :=
  match c with
  | GetTableNames => get_table_names_body w DB_CONFIG
  | GetTableData schema table => get_table_data_body w DB_CONFIG schema table
  | LoadWeatherData => load_weather_data_body w DB_CONFIG
  end.

(** The statement a call sends on a cache miss. *)
Definition sql_of (c : call) : string :=
  match c with
  | GetTableNames => sql_table_names
  | GetTableData schema table => sql_table_data schema table
  | LoadWeatherData => sql_weather
  end.

(** Warehouse round trips so far: one per connection attempt. *)
Definition round_trips (s : State) : nat :=
  length (List.filter (fun e => match e with EvConnect _ => true | _ => false end)
                      (trace s)).

(** ** Start of the script *)

(** The module builds [DB_CONFIG] (line 15) and, in the first tab, calls
    [get_table_names()] (line 86): the first contact with the warehouse. *)
Definition script_start (int_of_str : string -> option Z) (w : Warehouse)
    (env : gmap string string) : M Table :=
  fun s =>
    match load_DB_CONFIG int_of_str env with
    | Ok DB_CONFIG => get_table_names w DB_CONFIG s
    | Raise e => (Raise e, s)
    end.

(** ** Sample inputs for the examples *)

Definition sample_config : DBConfig :=
  mkDBConfig (Some "db.example.org") 5432 (Some "reader") (Some "secret")
             (Some "warehouse").

(** A warehouse that accepts every connection and rejects every statement. *)
Definition failing_warehouse : Warehouse :=
  mkWarehouse (fun _ _ => true) (fun _ _ => None).

(** A warehouse whose answer changes at every instant. *)
Definition changing_warehouse : Warehouse :=
  mkWarehouse (fun _ _ => true) (fun t _ => Some [[CInt (Z.of_nat t)]]).

(** An environment in which [DB_HOST] is not set (and [DB_PORT] neither). *)
Definition env_without_host : gmap string string :=
  <["DB_USER" := "reader"]>
    (<["DB_PASSWORD" := "secret"]> (<["DB_NAME" := "warehouse"]> ∅)).

(** ** The "Tables" tab (app.py, lines 87-93) *)

(** What one expander ends up showing: the frame ([st.dataframe]) or the
    error ([st.error]). *)
Inductive display : Type :=
  | Shown (df : Table)
  | Failed (e : exn).

(** The body of the loop: [try: df = get_table_data(schema, table)] with
    [except Exception as e], which catches every exception of the call. *)
Definition show_table (w : Warehouse) (DB_CONFIG : DBConfig)
    (name : string * string) : M display :=
  fun s =>
    match get_table_data w DB_CONFIG (fst name) (snd name) s with
    | (Ok df, s') => (Ok (Shown df), s')
    | (Raise e, s') => (Ok (Failed e), s')
    end.

(** [for schema, table in tables: ...], over the listed names. *)
Fixpoint browse_tables (w : Warehouse) (DB_CONFIG : DBConfig)
    (tables : list (string * string)) : M (list display) :=
  match tables with
  | [] => ret []
  | name :: rest =>
      do d <- show_table w DB_CONFIG name;
      do ds <- browse_tables w DB_CONFIG rest;
      ret (d :: ds)
  end.

Definition is_failed (d : display) : bool :=
  match d with
  | Failed _ => true
  | Shown _ => false
  end.

(** ** Sequences of calls *)

(** The state after a sequence of cached calls, each one made whether or
    not the one before raised (as over successive reruns of the script). *)
Definition run_calls (w : Warehouse) (DB_CONFIG : DBConfig)
    (cs : list call) (s : State) : State :=
  fold_left (fun st c => snd (invoke w DB_CONFIG c st)) cs s.

Definition call_eqb (c1 c2 : call) : bool :=
  match c1, c2 with
  | GetTableNames, GetTableNames => true
  | GetTableData s1 t1, GetTableData s2 t2 => String.eqb s1 s2 && String.eqb t1 t2
  | LoadWeatherData, LoadWeatherData => true
  | _, _ => false
  end.

(** Connections are named by the instant of their opening, so the name of
    an open connection lies in the past. *)
Definition ids_in_past (s : State) : bool :=
  forallb (fun c => (c <? now s)%nat) (open_conns s).

(** A warehouse that accepts every connection and answers every statement. *)
Definition always_answers (w : Warehouse) : Prop :=
  (forall t cfg, accepts w t cfg = true) /\
  (forall t sql, exists rows, answer w t sql = Some rows).

(** ** Strings *)

Fixpoint contains_char (c : ascii) (s : string) : bool :=
  match s with
  | EmptyString => false
  | String c' rest => Ascii.eqb c c' || contains_char c rest
  end.

Definition has_dquote (s : string) : bool :=
  contains_char (ascii_of_nat 34) s.

(** The sign of a float as printed: the sign bit. *)
Definition sign_bit (x : spec_float) : bool :=
  match x with
  | S754_zero s | S754_infinity s | S754_finite s _ _ => s
  | S754_nan => false
  end.

(** An expander whose statement raised (not one whose connection was
    refused). *)
Definition is_statement_failure (d : display) : bool :=
  match d with
  | Failed DatabaseError => true
  | _ => false
  end.
(* ===================================================================== *)
(** * Part II: properties                                                 *)
(* ===================================================================== *)

(** ** The binary64 order *)

Section FloatOrder.

Local Ltac cmp_cases :=
  repeat match goal with
  | |- context [Z.compare ?a ?b] => destruct (Z.compare_spec a b)
  | |- context [Pos.compare_cont Eq ?a ?b] =>
      change (Pos.compare_cont Eq a b) with (Pos.compare a b);
      destruct (Pos.compare_spec a b)
  | H : context [Z.compare ?a ?b] |- _ => destruct (Z.compare_spec a b)
  | H : context [Pos.compare_cont Eq ?a ?b] |- _ =>
      change (Pos.compare_cont Eq a b) with (Pos.compare a b) in H;
      destruct (Pos.compare_spec a b)
  end.

Local Ltac float_order :=
  unfold SFltb, SFleb, SFcompare in *;
  repeat match goal with
  | x : spec_float |- _ => destruct x
  | s : bool |- _ => destruct s
  end;
  simpl in *; try congruence; try reflexivity;
  cmp_cases; simpl in *; subst; try congruence; try reflexivity; try lia.

Lemma SFltb_trans (x y z : spec_float) :
  SFltb x y = true -> SFltb y z = true -> SFltb x z = true.
Proof. intros Hxy Hyz. float_order. Qed.

Lemma SFleb_ltb_trans (x y z : spec_float) :
  SFleb x y = true -> SFltb y z = true -> SFltb x z = true.
Proof. intros Hxy Hyz. float_order. Qed.

Lemma SFltb_leb_trans (x y z : spec_float) :
  SFltb x y = true -> SFleb y z = true -> SFltb x z = true.
Proof. intros Hxy Hyz. float_order. Qed.


Lemma SFleb_negb_ltb (x y : spec_float) :
  is_nan x = false -> is_nan y = false ->
  SFleb x y = negb (SFltb y x).
Proof. intros Hx Hy. float_order. Qed.


Lemma SFltb_nan_l (y : spec_float) : SFltb S754_nan y = false.
Proof. reflexivity. Qed.

Lemma SFltb_nan_r (x : spec_float) : SFltb x S754_nan = false.
Proof. destruct x; reflexivity. Qed.

Lemma SFleb_nan_l (y : spec_float) : SFleb S754_nan y = false.
Proof. reflexivity. Qed.

Lemma SFleb_nan_r (x : spec_float) : SFleb x S754_nan = false.
Proof. destruct x; reflexivity. Qed.

End FloatOrder.
(** ** The categorizer *)

Example float_of_int_10 :
  float_of_int 10 = S754_finite false 5629499534213120 (-49).
Proof. reflexivity. Qed.

(** The literal [9.999] is the binary64 value [0x1.3ff7ced916873p+3]. *)
Example float_of_decimal_9_999 :
  float_of_decimal 9999 3 = S754_finite false 5628936584259699 (-49).
Proof. vm_compute. reflexivity. Qed.

(** The literal [29.999] is the binary64 value [0x1.dffbe76c8b439p+4]. *)
Example float_of_decimal_29_999 :
  float_of_decimal 29999 3 = S754_finite false 8443967826342969 (-48).
Proof. vm_compute. reflexivity. Qed.

Example float_literals_valid :
  forallb (valid_binary prec emax)
    [float_of_int 10; float_of_int 20; float_of_int 30;
     float_of_decimal 9999 3; float_of_decimal 29999 3] = true.
Proof. vm_compute. reflexivity. Qed.

(** On a float that is not NaN the comparisons never raise, and the chained
    tests collapse to a cascade of three thresholds. *)
Lemma categorize_temperature_cascade (t : spec_float) :
  is_nan t = false ->
  categorize_temperature (PyFloat t) =
    Ok (if SFltb t (float_of_int 10) then Below10
        else if SFltb t (float_of_int 20) then From10To20
        else if SFltb t (float_of_int 30) then From20To30
        else AtLeast30).
Proof.
  intros Hnan.
  unfold categorize_temperature, py_between, py_int_le, py_lt_int, rbind.
  simpl pd_isnull. rewrite Hnan.
  rewrite !(SFleb_negb_ltb _ t) by (assumption || reflexivity).
  destruct (SFltb t (float_of_int 10));
    destruct (SFltb t (float_of_int 20));
    destruct (SFltb t (float_of_int 30)); reflexivity.
Qed.

Lemma SFltb_not_nan_l (x y : spec_float) : SFltb x y = true -> is_nan x = false.
Proof. destruct x; simpl; [reflexivity|reflexivity|discriminate|reflexivity]. Qed.

Lemma SFltb_not_nan_r (x y : spec_float) : SFltb x y = true -> is_nan y = false.
Proof. destruct y; try reflexivity. rewrite SFltb_nan_r. discriminate. Qed.

Lemma SFleb_not_nan_r (x y : spec_float) : SFleb x y = true -> is_nan y = false.
Proof. destruct y; try reflexivity. rewrite SFleb_nan_r. discriminate. Qed.

(** A value at or above a threshold is not below a smaller or equal one. *)
Lemma above_not_below (lo hi : Z) (t : spec_float) :
  SFltb (float_of_int lo) (float_of_int hi) = false ->
  SFleb (float_of_int lo) t = true ->
  SFltb t (float_of_int hi) = false.
Proof.
  intros Hc Hle. destruct (SFltb t (float_of_int hi)) eqn:Hlt; [|reflexivity].
  rewrite (SFleb_ltb_trans _ _ _ Hle Hlt) in Hc. discriminate.
Qed.

(** ** The thresholds, on exact values *)

Lemma digits2_pos_bounds (m : positive) :
  (2 ^ (Zpos (digits2_pos m) - 1) <= Zpos m < 2 ^ Zpos (digits2_pos m))%Z.
Proof.
  induction m as [p IH|p IH|]; cbn [digits2_pos].
  - rewrite Pos2Z.inj_succ.
    replace (Z.succ (Zpos (digits2_pos p)) - 1)%Z
      with (Z.succ (Zpos (digits2_pos p) - 1)) by lia.
    rewrite !Z.pow_succ_r by lia. lia.
  - rewrite Pos2Z.inj_succ.
    replace (Z.succ (Zpos (digits2_pos p)) - 1)%Z
      with (Z.succ (Zpos (digits2_pos p) - 1)) by lia.
    rewrite !Z.pow_succ_r by lia. lia.
  - simpl. lia.
Qed.

(** A valid binary64 mantissa is below [2^53], and at least [2^52] unless
    the exponent is the least one (a subnormal). *)
Lemma bounded_mantissa (m : positive) (e : Z) :
  bounded prec emax m e = true ->
  (Zpos m < 2 ^ 53)%Z /\ (-1074 <= e)%Z /\ ((-1074 < e)%Z -> (2 ^ 52 <= Zpos m)%Z).
Proof.
  unfold bounded, canonical_mantissa, fexp, emin, prec, emax.
  intros Hb. apply andb_true_iff in Hb. destruct Hb as [Hc _].
  apply Z.eqb_eq in Hc.
  pose proof (digits2_pos_bounds m) as [Hlo Hhi].
  set (d := Zpos (digits2_pos m)) in *.
  assert (Hd : (d <= 53)%Z) by lia.
  repeat split.
  - apply Z.lt_le_trans with (2 ^ d)%Z; [exact Hhi|].
    apply Z.pow_le_mono_r; lia.
  - lia.
  - intros He. assert (d = 53)%Z by lia.
    replace 52%Z with (d - 1)%Z by lia. exact Hlo.
Qed.

Lemma pow2_ge (a b : Z) : (0 <= a <= b)%Z -> (2 ^ a <= 2 ^ b)%Z.
Proof. intros H. apply Z.pow_le_mono_r; lia. Qed.

(** Against the three thresholds the binary64 comparison of the program is
    the comparison of exact values. *)
Lemma threshold_comparison_exact (f : spec_float) (n : Z) :
  n = 10%Z \/ n = 20%Z \/ n = 30%Z ->
  valid_binary prec emax f = true ->
  SFltb f (float_of_int n) = exact_lt_int f n.
Proof.
  intros Hn Hvalid.
  destruct f as [s|s| |s m e]; simpl in Hvalid.
  - destruct Hn as [-> | [-> | ->]]; destruct s; reflexivity.
  - destruct Hn as [-> | [-> | ->]]; destruct s; reflexivity.
  - reflexivity.
  - apply bounded_mantissa in Hvalid. destruct Hvalid as (Hm & Hemin & Hnorm).
    assert (H52 : (2 ^ 52 = 4503599627370496)%Z) by reflexivity.
    assert (H53 : (2 ^ 53 = 9007199254740992)%Z) by reflexivity.
    rewrite H53 in Hm. rewrite H52 in Hnorm.
    destruct s.
    { (* negative: below every threshold *)
      assert (Hlt : SFltb (S754_finite true m e) (float_of_int n) = true)
        by (destruct Hn as [-> | [-> | ->]]; reflexivity).
      rewrite Hlt. symmetry. unfold exact_lt_int.
      assert (0 < n)%Z by lia.
      destruct (Z.leb_spec 0 e).
      - apply Z.ltb_lt. assert (0 < 2 ^ e)%Z by (apply Z.pow_pos_nonneg; lia). nia.
      - apply Z.ltb_lt. assert (0 < 2 ^ (- e))%Z by (apply Z.pow_pos_nonneg; lia). nia. }
    (* positive *)
    assert (Hcmp : exists M E,
      float_of_int n = S754_finite false M E /\
      (Zpos M = n * 2 ^ (- E))%Z /\ (E = -49 \/ E = -48)%Z /\
      (n * 2 ^ 47 < 2 ^ 52)%Z /\ (E = -49 -> n * 2 ^ 48 < 2 ^ 52)%Z /\
      (2 ^ 53 <= n * 2 ^ (1 - E))%Z).
    { destruct Hn as [-> | [-> | ->]]; do 2 eexists;
        (split; [reflexivity|]); repeat split; try reflexivity;
        try (left; reflexivity); try (right; reflexivity);
        try (intros _; reflexivity); try (intros; discriminate);
        try (vm_compute; discriminate). }
    destruct Hcmp as (M & E & -> & HM & HE & H47 & H48 & Hbig).
    unfold SFltb, SFcompare, exact_lt_int.
    destruct (Z.compare_spec e E) as [Heq | Hlt | Hgt].
    + (* same exponent: the mantissas decide *)
      subst e. change (Pos.compare_cont Eq m M) with (Pos.compare m M).
      assert (Hneg : (0 <=? E)%Z = false) by (apply Z.leb_gt; lia).
      rewrite Hneg, <- HM.
      destruct (Pos.compare_spec m M) as [-> | Hl | Hg]; symmetry.
      * apply Z.ltb_irrefl.
      * apply Z.ltb_lt. lia.
      * apply Z.ltb_ge. lia.
    + (* smaller exponent: below the threshold *)
      assert (Hneg : (0 <=? e)%Z = false) by (apply Z.leb_gt; lia).
      rewrite Hneg. symmetry. apply Z.ltb_lt.
      assert (Hp : (2 ^ (1 - E) <= 2 ^ (- e))%Z) by (apply pow2_ge; lia).
      assert (0 < n)%Z by lia. rewrite H53 in Hbig. nia.
    + (* larger exponent: a normal number at or above the threshold *)
      assert (Hm52 : (4503599627370496 <= Zpos m)%Z) by (apply Hnorm; lia).
      symmetry. destruct (Z.leb_spec 0 e).
      * apply Z.ltb_ge.
        assert (1 <= 2 ^ e)%Z by (apply (pow2_ge 0 e); lia).
        assert (n <= 30)%Z by lia. nia.
      * apply Z.ltb_ge. rewrite H52 in H47, H48.
        assert (0 < n)%Z by lia.
        destruct HE as [-> | ->].
        -- assert (Hp : (2 ^ (- e) <= 2 ^ 48)%Z) by (apply pow2_ge; lia).
           specialize (H48 eq_refl). nia.
        -- assert (Hp : (2 ^ (- e) <= 2 ^ 47)%Z) by (apply pow2_ge; lia).
           nia.
Qed.

(** The cascade of [categorize_temperature], read on exact values: for a
    valid binary64 temperature that is not NaN the bucket is decided by
    comparing its value with 10, 20 and 30. *)
Lemma categorize_temperature_exact (t : spec_float) :
  valid_binary prec emax t = true -> is_nan t = false ->
  categorize_temperature (PyFloat t) =
    Ok (if exact_lt_int t 10 then Below10
        else if exact_lt_int t 20 then From10To20
        else if exact_lt_int t 30 then From20To30
        else AtLeast30).
Proof.
  intros Hv Hn. rewrite categorize_temperature_cascade by exact Hn.
  rewrite !threshold_comparison_exact by (assumption || tauto).
  reflexivity.
Qed.
(** C1. For every input [temp], [categorize_temperature] returns "Unknown"
    when [temp] is null, "<10°C" when [temp < 10], "10–20°C" when
    [10 <= temp < 20], "20–30°C" when [20 <= temp < 30] and "≥30°C" when
    [temp >= 30]; in particular [None] gives "Unknown", [9.999] gives
    "<10°C", [10.0] gives "10–20°C", [29.999] gives "20–30°C" and [30.0]
    gives "≥30°C".  The comparisons are those of binary64; on a valid
    binary64 value they are the comparisons of its exact value with the
    integers 10, 20 and 30. *)
Theorem categorize_temperature_buckets (temp : pyval) :
  (pd_isnull temp = true -> categorize_temperature temp = Ok Unknown) /\
  (forall t : spec_float, temp = PyFloat t ->
     (SFltb t (float_of_int 10) = true ->
        categorize_temperature temp = Ok Below10) /\
     (SFleb (float_of_int 10) t = true -> SFltb t (float_of_int 20) = true ->
        categorize_temperature temp = Ok From10To20) /\
     (SFleb (float_of_int 20) t = true -> SFltb t (float_of_int 30) = true ->
        categorize_temperature temp = Ok From20To30) /\
     (SFleb (float_of_int 30) t = true ->
        categorize_temperature temp = Ok AtLeast30)) /\
  (forall t : spec_float,
     temp = PyFloat t -> valid_binary prec emax t = true -> is_nan t = false ->
     categorize_temperature temp =
       Ok (if exact_lt_int t 10 then Below10
           else if exact_lt_int t 20 then From10To20
           else if exact_lt_int t 30 then From20To30
           else AtLeast30)) /\
  categorize_temperature PyNone = Ok Unknown /\
  categorize_temperature (PyFloat (float_of_decimal 9999 3)) = Ok Below10 /\
  categorize_temperature (PyFloat (float_of_decimal 100 1)) = Ok From10To20 /\
  categorize_temperature (PyFloat (float_of_decimal 29999 3)) = Ok From20To30 /\
  categorize_temperature (PyFloat (float_of_decimal 300 1)) = Ok AtLeast30.
Proof.
  split; [|split; [|split; [|repeat split; vm_compute; reflexivity]]].
  - intros Hnull. unfold categorize_temperature. rewrite Hnull. reflexivity.
  - intros t ->. repeat split.
    + intros H10.
      rewrite categorize_temperature_cascade by exact (SFltb_not_nan_l _ _ H10).
      rewrite H10. reflexivity.
    + intros Hlo Hhi.
      rewrite categorize_temperature_cascade by exact (SFltb_not_nan_l _ _ Hhi).
      rewrite (above_not_below 10 10 t eq_refl Hlo), Hhi. reflexivity.
    + intros Hlo Hhi.
      rewrite categorize_temperature_cascade by exact (SFltb_not_nan_l _ _ Hhi).
      rewrite (above_not_below 20 10 t eq_refl Hlo).
      rewrite (above_not_below 20 20 t eq_refl Hlo), Hhi. reflexivity.
    + intros Hlo.
      rewrite categorize_temperature_cascade by exact (SFleb_not_nan_r _ _ Hlo).
      rewrite (above_not_below 30 10 t eq_refl Hlo).
      rewrite (above_not_below 30 20 t eq_refl Hlo).
      rewrite (above_not_below 30 30 t eq_refl Hlo). reflexivity.
  - intros t -> Hvalid Hnan. now apply categorize_temperature_exact.
Qed.

(** The bucket of 15.5, through the general statement. *)
Lemma categorize_temperature_buckets_witness :
  categorize_temperature (PyFloat (float_of_decimal 155 1)) = Ok From10To20.
Proof.
  pose proof (categorize_temperature_buckets (PyFloat (float_of_decimal 155 1)))
    as [_ [H _]].
  destruct (H (float_of_decimal 155 1) eq_refl) as [_ [Hmid _]].
  apply Hmid; vm_compute; reflexivity.
Defined.

Lemma buckets_NoDup : List.NoDup buckets.
Proof.
  unfold buckets, Below10, From10To20, From20To30, AtLeast30, Unknown.
  repeat (apply List.NoDup_cons; [simpl; intuition discriminate|]).
  apply List.NoDup_nil.
Qed.

(** Every input gets a bucket. *)
Lemma categorize_temperature_returns (temp : pyval) :
  exists b, categorize_temperature temp = Ok b /\ In b buckets.
Proof.
  destruct temp as [|t].
  - exists Unknown. split; [reflexivity|]. simpl. tauto.
  - destruct (is_nan t) eqn:Hnan.
    + exists Unknown. split; [|simpl; tauto].
      unfold categorize_temperature. simpl. rewrite Hnan. reflexivity.
    + rewrite categorize_temperature_cascade by assumption.
      eexists. split; [reflexivity|].
      destruct (SFltb t (float_of_int 10)); [simpl; tauto|].
      destruct (SFltb t (float_of_int 20)); [simpl; tauto|].
      destruct (SFltb t (float_of_int 30)); simpl; tauto.
Qed.

(** C2. [categorize_temperature] is total: on every nullable float it
    returns a value, which is one of the five (pairwise distinct) buckets;
    and it is monotonic: when [t1 < t2] (so neither is null) the bucket of
    [t1] is not later than the bucket of [t2] in the ordering
    [<10°C], [10–20°C], [20–30°C], [≥30°C]. *)
Theorem categorize_temperature_total_monotone :
  (forall temp : pyval,
     exists b, categorize_temperature temp = Ok b /\ In b buckets) /\
  List.NoDup buckets /\
  (forall t1 t2 : spec_float,
     SFltb t1 t2 = true ->
     exists b1 b2 r1 r2,
       categorize_temperature (PyFloat t1) = Ok b1 /\
       categorize_temperature (PyFloat t2) = Ok b2 /\
       bucket_rank b1 = Some r1 /\ bucket_rank b2 = Some r2 /\
       (r1 <= r2)%nat).
Proof.
  split; [|split; [exact buckets_NoDup|]].
  - exact categorize_temperature_returns.
  - intros t1 t2 Hlt.
    rewrite (categorize_temperature_cascade t1) by exact (SFltb_not_nan_l _ _ Hlt).
    rewrite (categorize_temperature_cascade t2) by exact (SFltb_not_nan_r _ _ Hlt).
    assert (Hmono : forall c, SFltb t2 c = true -> SFltb t1 c = true)
      by (intros c Hc; exact (SFltb_trans _ _ _ Hlt Hc)).
    destruct (SFltb t2 (float_of_int 10)) eqn:A2.
    { rewrite (Hmono _ A2). do 4 eexists. repeat split; try reflexivity. }
    destruct (SFltb t2 (float_of_int 20)) eqn:B2.
    { rewrite (Hmono _ B2).
      destruct (SFltb t1 (float_of_int 10));
        do 4 eexists; repeat split; try reflexivity; lia. }
    destruct (SFltb t2 (float_of_int 30)) eqn:C2.
    { rewrite (Hmono _ C2).
      destruct (SFltb t1 (float_of_int 10)); [|destruct (SFltb t1 (float_of_int 20))];
        do 4 eexists; repeat split; try reflexivity; lia. }
    destruct (SFltb t1 (float_of_int 10));
      [|destruct (SFltb t1 (float_of_int 20));
        [|destruct (SFltb t1 (float_of_int 30))]];
      do 4 eexists; repeat split; try reflexivity; lia.
Qed.

(** 9.999 < 10.0: the buckets "<10°C" and "10–20°C" are in order. *)
Lemma categorize_temperature_total_monotone_witness :
  exists b1 b2 r1 r2,
    categorize_temperature (PyFloat (float_of_decimal 9999 3)) = Ok b1 /\
    categorize_temperature (PyFloat (float_of_decimal 100 1)) = Ok b2 /\
    bucket_rank b1 = Some r1 /\ bucket_rank b2 = Some r2 /\ (r1 <= r2)%nat.
Proof.
  apply (proj2 (proj2 categorize_temperature_total_monotone)).
  vm_compute. reflexivity.
Defined.

(** C10. A NaN temperature is null for [pd.isnull], so it is bucketed as
    "Unknown"; the guard is what keeps it out of the final [else] branch,
    since every comparison on NaN is false. *)
Theorem categorize_temperature_nan (f : spec_float) :
  is_nan f = true ->
  pd_isnull (PyFloat f) = true /\
  categorize_temperature (PyFloat f) = Ok Unknown /\
  py_lt_int (PyFloat f) 10 = Ok false /\
  py_between 10 (PyFloat f) 20 = Ok false /\
  py_between 20 (PyFloat f) 30 = Ok false.
Proof.
  destruct f; try discriminate. intros _.
  repeat split.
Qed.

Lemma categorize_temperature_nan_witness :
  pd_isnull (PyFloat S754_nan) = true /\
  categorize_temperature (PyFloat S754_nan) = Ok Unknown /\
  py_lt_int (PyFloat S754_nan) 10 = Ok false /\
  py_between 10 (PyFloat S754_nan) 20 = Ok false /\
  py_between 20 (PyFloat S754_nan) 30 = Ok false.
Proof.
  apply (categorize_temperature_nan S754_nan). reflexivity.
Defined.
(** ** The frame with its bucket column *)

Lemma add_temp_range_total (loaded : list Observation) :
  exists df, add_temp_range loaded = Ok df /\
             List.map obs df = loaded /\
             Forall (fun r => categorize_temperature (temp (obs r)) = Ok (temp_range r)) df.
Proof.
  induction loaded as [|o rest IH].
  - exists []. simpl. repeat split. constructor.
  - destruct IH as (rows & Hrows & Hmap & Hall).
    destruct (categorize_temperature_returns (temp o)) as (b & Hb & _).
    exists (mkRow o b :: rows). simpl. rewrite Hb. simpl. rewrite Hrows. simpl.
    repeat split.
    + now rewrite Hmap.
    + constructor; [exact Hb | exact Hall].
Qed.

(** ** Membership and distinct values *)

Lemma isin_In (x : string) (values : list string) :
  isin String.eqb x values = true <-> In x values.
Proof.
  unfold isin. rewrite existsb_exists. split.
  - intros (y & Hy & Heq). apply String.eqb_eq in Heq. now subst.
  - intros Hin. exists x. split; [exact Hin | apply String.eqb_refl].
Qed.

Lemma isin_nil {K : Type} (eqb : K -> K -> bool) (x : K) : isin eqb x [] = false.
Proof. reflexivity. Qed.

Section Unique.

Context {K : Type} (eqb : K -> K -> bool).
Hypothesis eqb_eq : forall x y, eqb x y = true <-> x = y.

Lemma isin_In_gen (x : K) (values : list K) :
  isin eqb x values = true <-> In x values.
Proof.
  unfold isin. rewrite existsb_exists. split.
  - intros (y & Hy & Heq). apply eqb_eq in Heq. now subst.
  - intros Hin. exists x. split; [exact Hin | now apply eqb_eq].
Qed.

Lemma unique_from_In (x : K) (l seen : list K) :
  In x (unique_from eqb seen l) <-> In x l /\ ~ In x seen.
Proof.
  revert seen. induction l as [|y rest IH]; intros seen; simpl.
  - tauto.
  - destruct (isin eqb y seen) eqn:Hy.
    + apply isin_In_gen in Hy. rewrite IH. split.
      * intros [H1 H2]. tauto.
      * intros [[-> | H1] H2]; tauto.
    + assert (Hn : ~ In y seen).
      { intros Hin. apply isin_In_gen in Hin. congruence. }
      simpl. rewrite IH. simpl. split.
      * intros [-> | [H1 H2]]; tauto.
      * intros [[-> | H1] H2]; [tauto|].
        destruct (eqb y x) eqn:Hyx.
        -- apply eqb_eq in Hyx. tauto.
        -- right. split; [exact H1|]. intros [-> | H3]; [|tauto].
           assert (eqb x x = true) by now apply eqb_eq. congruence.
Qed.

Lemma unique_In (x : K) (l : list K) : In x (unique eqb l) <-> In x l.
Proof. unfold unique. rewrite unique_from_In. simpl. tauto. Qed.

Lemma unique_from_NoDup (l seen : list K) :
  List.NoDup (unique_from eqb seen l).
Proof.
  revert seen. induction l as [|y rest IH]; intros seen; simpl.
  - constructor.
  - destruct (isin eqb y seen); [apply IH|].
    constructor; [|apply IH].
    rewrite unique_from_In. simpl. tauto.
Qed.

Lemma unique_NoDup (l : list K) : List.NoDup (unique eqb l).
Proof. apply unique_from_NoDup. Qed.

End Unique.

Lemma filter_all {A : Type} (p : A -> bool) (l : list A) :
  (forall x, In x l -> p x = true) -> List.filter p l = l.
Proof.
  induction l as [|x rest IH]; intros Hall; simpl; [reflexivity|].
  rewrite (Hall x) by (left; reflexivity).
  rewrite IH; [reflexivity|]. intros y Hy. apply Hall. now right.
Qed.

Lemma filter_none {A : Type} (p : A -> bool) (l : list A) :
  (forall x, In x l -> p x = false) -> List.filter p l = [].
Proof.
  induction l as [|x rest IH]; intros Hall; simpl; [reflexivity|].
  rewrite (Hall x) by (left; reflexivity).
  apply IH. intros y Hy. apply Hall. now right.
Qed.

Lemma filter_sublist {A : Type} (p : A -> bool) (l : list A) :
  sublist (List.filter p l) l.
Proof.
  induction l as [|x rest IH]; simpl.
  - constructor.
  - destruct (p x); [now apply sublist_skip | now apply sublist_cons].
Qed.

(** ** The four-way filter *)

(** C3. For every frame and every four selections, [filtered_df] keeps a
    row if and only if its condition, country, city and temperature bucket
    are each a member of the corresponding selection, and keeps the rows in
    their order; so an empty selection in any one dimension gives the empty
    frame; and the tab never raises. *)
Theorem filtered_df_keeps_members
    (df : list Row) (sel_condition sel_country sel_city sel_ranges : list string) :
  (forall r : Row,
     In r (filtered_df df sel_condition sel_country sel_city sel_ranges) <->
     In r df /\
     In (condition_name (obs r)) sel_condition /\
     In (country_name (obs r)) sel_country /\
     In (city_name (obs r)) sel_city /\
     In (temp_range r) sel_ranges) /\
  sublist (filtered_df df sel_condition sel_country sel_city sel_ranges) df /\
  filtered_df df [] sel_country sel_city sel_ranges = [] /\
  filtered_df df sel_condition [] sel_city sel_ranges = [] /\
  filtered_df df sel_condition sel_country [] sel_ranges = [] /\
  filtered_df df sel_condition sel_country sel_city [] = [] /\
  (forall (loaded : list Observation) (w : Widgets),
     exists out, tab_filters loaded w = Ok out).
Proof.
  split; [|split; [|repeat split]].
  - intros r. unfold filtered_df. rewrite filter_In.
    rewrite !andb_true_iff, !isin_In. tauto.
  - apply filter_sublist.
  - apply filter_none. intros r _. reflexivity.
  - apply filter_none. intros r _. rewrite isin_nil.
    now rewrite andb_false_r.
  - apply filter_none. intros r _. rewrite isin_nil.
    now rewrite andb_false_r.
  - apply filter_none. intros r _. rewrite isin_nil.
    now rewrite andb_false_r.
  - intros loaded w. unfold tab_filters.
    destruct (add_temp_range_total loaded) as (rows & -> & _).
    simpl. eexists. reflexivity.
Qed.

(** C4. With every selection equal to the distinct values present in the
    frame (the defaults of the four widgets), [filtered_df] returns the
    frame itself; this is what the tab computes on first render. *)
Theorem filtered_df_default_identity (df : list Row) :
  filtered_df df
    (unique String.eqb (List.map (fun r => condition_name (obs r)) df))
    (unique String.eqb (List.map (fun r => country_name (obs r)) df))
    (unique String.eqb (List.map (fun r => city_name (obs r)) df))
    (unique String.eqb (List.map temp_range df)) = df /\
  (forall loaded : list Observation,
     exists rows, add_temp_range loaded = Ok rows /\
                  List.map obs rows = loaded /\
                  tab_filters loaded first_render = Ok (rows, summary_metrics rows)).
Proof.
  assert (Hid : forall rows : list Row,
    filtered_df rows
      (unique String.eqb (List.map (fun r => condition_name (obs r)) rows))
      (unique String.eqb (List.map (fun r => country_name (obs r)) rows))
      (unique String.eqb (List.map (fun r => city_name (obs r)) rows))
      (unique String.eqb (List.map temp_range rows)) = rows).
  { intros rows. apply filter_all. intros r Hr.
    rewrite !andb_true_iff, !isin_In, !(unique_In _ String.eqb_eq).
    repeat split.
    - exact (in_map (fun r => condition_name (obs r)) rows r Hr).
    - exact (in_map (fun r => country_name (obs r)) rows r Hr).
    - exact (in_map (fun r => city_name (obs r)) rows r Hr).
    - exact (in_map temp_range rows r Hr). }
  split; [apply Hid|].
  intros loaded. destruct (add_temp_range_total loaded) as (rows & Hrows & Hmap & _).
  exists rows. repeat split; try assumption.
  unfold tab_filters. rewrite Hrows. simpl. rewrite Hid. reflexivity.
Qed.
(** ** Sorting *)

Section Sort.

Context {A : Type} (leb : A -> A -> bool).

Lemma insert_sorted_perm (x : A) (l : list A) :
  Permutation (insert_sorted leb x l) (x :: l).
Proof.
  induction l as [|y rest IH]; simpl.
  - reflexivity.
  - destruct (leb x y); [reflexivity|].
    rewrite IH. apply perm_swap.
Qed.

Lemma sort_perm (l : list A) : Permutation (sort leb l) l.
Proof.
  induction l as [|x rest IH]; simpl.
  - reflexivity.
  - rewrite insert_sorted_perm. now apply perm_skip.
Qed.


(** Sortedness needs the order to be total and transitive only on the
    elements that are sorted: the float order is total away from NaN. *)
Variable P : A -> Prop.
Hypothesis leb_total : forall x y, P x -> P y -> leb x y = true \/ leb y x = true.
Hypothesis leb_trans : forall x y z, leb x y = true -> leb y z = true -> leb x z = true.



End Sort.




Lemma filter_partition_perm {A : Type} (p : A -> bool) (l : list A) :
  Permutation (List.filter (fun x => negb (p x)) l ++ List.filter p l) l.
Proof.
  induction l as [|x rest IH]; simpl; [reflexivity|].
  destruct (p x); simpl.
  - rewrite <- Permutation_middle. now apply perm_skip.
  - now apply perm_skip.
Qed.

(** ** Means that skip nulls *)

Lemma dropna_app (xs ys : list pyval) : dropna (xs ++ ys) = dropna xs ++ dropna ys.
Proof. unfold dropna. apply flat_map_app. Qed.

Lemma dropna_null_cons (v : pyval) (xs : list pyval) :
  pd_isnull v = true -> dropna (v :: xs) = dropna xs.
Proof.
  intros Hv. destruct v as [|f]; simpl in *; [reflexivity|].
  now rewrite Hv.
Qed.

Lemma dropna_filter (xs : list pyval) :
  dropna (List.filter (fun v => negb (pd_isnull v)) xs) = dropna xs.
Proof.
  induction xs as [|v rest IH]; [reflexivity|].
  simpl List.filter. destruct (pd_isnull v) eqn:Hv; simpl negb; cbv iota.
  - rewrite dropna_null_cons by exact Hv. exact IH.
  - change (v :: ?l) with ([v] ++ l). rewrite !dropna_app. now rewrite IH.
Qed.

Lemma dropna_all_null (xs : list pyval) :
  Forall (fun v => pd_isnull v = true) xs -> dropna xs = [].
Proof.
  induction 1 as [|v rest Hv _ IH]; [reflexivity|].
  rewrite dropna_null_cons by exact Hv. exact IH.
Qed.


Lemma mean_of_group_filter_notnull (xs : list pyval) :
  mean_of_group xs = mean_of_group (List.filter (fun v => negb (pd_isnull v)) xs).
Proof. unfold mean_of_group. now rewrite dropna_filter. Qed.


Lemma mean_all_null (xs : list pyval) :
  Forall (fun v => pd_isnull v = true) xs -> mean xs = S754_nan.
Proof. intros H. unfold mean. now rewrite dropna_all_null. Qed.

(** ** The pairwise sum of numpy *)

(** The recursion of [pairwise_sum_rec] never runs out of fuel: any fuel
    that is at least the length of the array gives the same sum. *)
Lemma pairwise_sum_fuel (fuel fuel' : nat) (a : list spec_float) :
  (length a <= fuel)%nat -> (length a <= fuel')%nat ->
  pairwise_sum_rec fuel a = pairwise_sum_rec fuel' a.
Proof.
  revert fuel' a. induction fuel as [|fuel IH]; intros fuel' a Hf Hf'.
  - destruct a; [|simpl in Hf; lia]. now destruct fuel'.
  - destruct fuel' as [|fuel'].
    + destruct a; [reflexivity | simpl in Hf'; lia].
    + cbn [pairwise_sum_rec].
      destruct (Nat.ltb_spec (length a) 8) as [|H8]; [reflexivity|].
      destruct (Nat.leb_spec (length a) 128) as [|H128]; [reflexivity|].
      set (n2 := (length a / 2 - (length a / 2) mod 8)%nat).
      assert (Hhalf : (length a / 2 < length a)%nat)
        by (apply Nat.div_lt; lia).
      assert (Hge : (64 <= length a / 2)%nat)
        by (apply Nat.div_le_lower_bound; lia).
      assert (Hmod : ((length a / 2) mod 8 < 8)%nat)
        by (apply Nat.mod_upper_bound; lia).
      assert (Hn2 : (0 < n2 < length a)%nat) by (unfold n2; lia).
      f_equal; apply IH; rewrite ?length_firstn, ?length_skipn; lia.
Qed.

(** Up to seven cells are added from left to right. *)
Lemma pairwise_sum_short (a : list spec_float) :
  (length a < 8)%nat -> pairwise_sum a = sum_loop (S754_zero false) a.
Proof.
  intros H. unfold pairwise_sum. generalize (length a) at 1 as fuel.
  intros fuel. destruct fuel; cbn [pairwise_sum_rec];
    destruct (Nat.ltb_spec (length a) 8); (reflexivity || lia).
Qed.

(** The order of the additions, on eight, nine and sixteen cells. *)
Lemma pairwise_sum_eight (a0 a1 a2 a3 a4 a5 a6 a7 : spec_float) :
  pairwise_sum [a0; a1; a2; a3; a4; a5; a6; a7] =
  SFadd prec emax
    (SFadd prec emax (SFadd prec emax a0 a1) (SFadd prec emax a2 a3))
    (SFadd prec emax (SFadd prec emax a4 a5) (SFadd prec emax a6 a7)).
Proof. reflexivity. Qed.

Lemma pairwise_sum_nine (a0 a1 a2 a3 a4 a5 a6 a7 a8 : spec_float) :
  pairwise_sum [a0; a1; a2; a3; a4; a5; a6; a7; a8] =
  SFadd prec emax (pairwise_sum [a0; a1; a2; a3; a4; a5; a6; a7]) a8.
Proof. reflexivity. Qed.

Lemma pairwise_sum_sixteen
    (a0 a1 a2 a3 a4 a5 a6 a7 b0 b1 b2 b3 b4 b5 b6 b7 : spec_float) :
  pairwise_sum [a0; a1; a2; a3; a4; a5; a6; a7; b0; b1; b2; b3; b4; b5; b6; b7] =
  pairwise_sum
    [SFadd prec emax a0 b0; SFadd prec emax a1 b1; SFadd prec emax a2 b2;
     SFadd prec emax a3 b3; SFadd prec emax a4 b4; SFadd prec emax a5 b5;
     SFadd prec emax a6 b6; SFadd prec emax a7 b7].
Proof. reflexivity. Qed.

(** An array of more than 128 cells is split at [n / 2], rounded down to a
    multiple of eight. *)
Lemma pairwise_sum_split (a : list spec_float) :
  (128 < length a)%nat ->
  pairwise_sum a =
  SFadd prec emax
    (pairwise_sum (firstn (length a / 2 - (length a / 2) mod 8) a))
    (pairwise_sum (skipn (length a / 2 - (length a / 2) mod 8) a)).
Proof.
  intros H. unfold pairwise_sum at 1.
  destruct (length a) as [|n] eqn:Hn; [lia|].
  cbn [pairwise_sum_rec]. rewrite Hn.
  destruct (Nat.ltb_spec (S n) 8); [lia|].
  destruct (Nat.leb_spec (S n) 128); [lia|].
  set (n2 := (S n / 2 - (S n / 2) mod 8)%nat).
  assert (Hhalf : (S n / 2 < S n)%nat) by (apply Nat.div_lt; lia).
  assert (Hmod : ((S n / 2) mod 8 < 8)%nat) by (apply Nat.mod_upper_bound; lia).
  assert (Hge : (64 <= S n / 2)%nat) by (apply Nat.div_le_lower_bound; lia).
  unfold pairwise_sum. f_equal; apply pairwise_sum_fuel;
    rewrite ?length_firstn, ?length_skipn; unfold n2; lia.
Qed.

(** ** The compensated sum of a group *)

(** After an infinite cell the compensation is 0.0 again and the sum stays
    infinite: the mean of 10.0, inf, 20.0 is inf. *)
Example mean_of_group_infinite_cell :
  mean_of_group [PyFloat (float_of_int 10); PyFloat (S754_infinity false);
                 PyFloat (float_of_int 20)] = S754_infinity false.
Proof. vm_compute. reflexivity. Qed.
(** ** Group means *)



Lemma sort_values_desc_perm {K : Type} (l : list (K * spec_float)) :
  Permutation (sort_values_desc l) l.
Proof.
  unfold sort_values_desc. rewrite sort_perm.
  apply (filter_partition_perm (fun p => is_nan (snd p))).
Qed.


Section GroupBy.

Context {K : Type} (eqb leb : K -> K -> bool) (key : Row -> K).
Hypothesis eqb_eq : forall x y, eqb x y = true <-> x = y.



End GroupBy.



(** *** The value of a group mean on whole-degree temperatures *)










(** ** Two-decimal formatting *)

Lemma append_String (c : ascii) (s t : string) :
  String c s +:+ t = String c (s +:+ t).
Proof. reflexivity. Qed.

Lemma append_assoc (s t u : string) : (s +:+ t) +:+ u = s +:+ (t +:+ u).
Proof.
  induction s as [|c s IH]; [reflexivity|].
  rewrite !append_String. now rewrite IH.
Qed.

(** The digits of an unsigned decimal are skipped by the checker. *)
Lemma digits_point_two_uint (u : Decimal.uint) (rest : string) (seen : bool) :
  digits_point_two (DecimalString.NilEmpty.string_of_uint u +:+ rest) seen =
  digits_point_two rest (match u with Decimal.Nil => seen | _ => true end).
Proof.
  revert seen. induction u as [|u IH|u IH|u IH|u IH|u IH|u IH|u IH|u IH|u IH|u IH];
    intros seen; [reflexivity|..];
    cbn [DecimalString.NilEmpty.string_of_uint];
    rewrite append_String; cbn [digits_point_two];
    change (Ascii.eqb _ "."%char) with false; cbv iota;
    change (is_digit _) with true; cbn [andb];
    rewrite IH; destruct u; reflexivity.
Qed.

Lemma digits_point_two_decimal (n : Z) (rest : string) (seen : bool) :
  digits_point_two (decimal n +:+ rest) seen = digits_point_two rest true.
Proof.
  unfold decimal, DecimalString.NilZero.string_of_uint.
  destruct (N.to_uint (Z.to_N n)) eqn:Hu;
    try (rewrite digits_point_two_uint; reflexivity).
  reflexivity.
Qed.

Lemma decimal_head (n : Z) :
  exists c s, decimal n = String c s /\ Ascii.eqb c "-"%char = false.
Proof.
  unfold decimal, DecimalString.NilZero.string_of_uint.
  destruct (N.to_uint (Z.to_N n));
    cbn [DecimalString.NilEmpty.string_of_uint]; do 2 eexists;
    (split; [reflexivity | reflexivity]).
Qed.

Lemma decimal_one_digit (k : Z) :
  (0 <= k <= 9)%Z -> exists c, decimal k = String c EmptyString /\ is_digit c = true.
Proof.
  intros Hk.
  assert (Hcases : (k = 0 \/ k = 1 \/ k = 2 \/ k = 3 \/ k = 4 \/ k = 5 \/
                   k = 6 \/ k = 7 \/ k = 8 \/ k = 9)%Z) by lia.
  repeat (destruct Hcases as [-> | Hcases];
          [eexists; split; vm_compute; reflexivity|]).
  subst k. eexists; split; vm_compute; reflexivity.
Qed.

Lemma two_digits_shape (h : Z) :
  exists d1 d2, two_digits (h mod 100) = String d1 (String d2 EmptyString) /\
                is_digit d1 = true /\ is_digit d2 = true.
Proof.
  unfold two_digits.
  assert (Hr : (0 <= h mod 100 < 100)%Z) by (apply Z.mod_pos_bound; lia).
  destruct (decimal_one_digit (h mod 100 / 10)) as (d1 & E1 & D1).
  { split; [apply Z.div_pos; lia | apply Z.lt_succ_r, Z.div_lt_upper_bound; lia]. }
  destruct (decimal_one_digit ((h mod 100) mod 10)) as (d2 & E2 & D2).
  { pose proof (Z.mod_pos_bound (h mod 100) 10 ltac:(lia)). lia. }
  exists d1, d2. rewrite E1, E2. repeat split; assumption.
Qed.

(** A finite value is printed as digits, a point and two digits. *)
Lemma format_2f_two_decimals (x : spec_float) :
  is_finite x = true -> two_decimals (format_2f x) = true.
Proof.
  destruct x as [s|s| |s m e]; try discriminate; intros _.
  - destruct s; reflexivity.
  - unfold format_2f.
    destruct (two_digits_shape (hundredths m e)) as (d1 & d2 & E & D1 & D2).
    rewrite E.
    assert (Hbody : forall seen,
      digits_point_two
        (decimal (hundredths m e / 100) +:+ "." +:+ String d1 (String d2 EmptyString))
        seen = true).
    { intros seen. rewrite digits_point_two_decimal.
      change ("." +:+ ?t) with (String "."%char t).
      cbn [digits_point_two].
      change (Ascii.eqb "."%char "."%char) with true. cbv iota.
      rewrite D1, D2. reflexivity. }
    destruct s.
    + change ("-" +:+ ?t) with (String "-"%char t).
      cbn [two_decimals].
      change (Ascii.eqb "-"%char "-"%char) with true. cbv iota. apply Hbody.
    + change ("" +:+ ?t) with t.
      destruct (decimal_head (hundredths m e / 100)) as (c & r & Ec & Hc).
      pose proof (Hbody false) as Hb.
      unfold two_decimals. rewrite Ec in *. rewrite append_String in *.
      rewrite Hc. exact Hb.
Qed.

(** [round_half_even n d] is an integer nearest to [n / d]. *)
Lemma round_half_even_nearest (n d : Z) :
  (0 < d)%Z ->
  (Z.abs (2 * (round_half_even n d * d - n)) <= d)%Z.
Proof.
  intros Hd. unfold round_half_even.
  pose proof (Z.div_mod n d ltac:(lia)) as Hdm.
  pose proof (Z.mod_pos_bound n d Hd) as Hr.
  set (q := (n / d)%Z) in *. set (r := (n mod d)%Z) in *.
  destruct (Z.compare_spec (2 * r) d) as [Heq | Hlt | Hgt].
  - destruct (Z.even q); nia.
  - nia.
  - nia.
Qed.

(** [hundredths m e] is an integer nearest to [m * 2^e * 100]. *)
Lemma hundredths_nearest (m : positive) (e : Z) :
  ((0 <= e)%Z -> hundredths m e = (Zpos m * 2 ^ e * 100)%Z) /\
  ((e < 0)%Z ->
   (Z.abs (2 * (hundredths m e * 2 ^ (- e) - Zpos m * 100)) <= 2 ^ (- e))%Z).
Proof.
  unfold hundredths. split; intros He.
  - apply Z.leb_le in He. now rewrite He.
  - assert (Hn : (0 <=? e)%Z = false) by (apply Z.leb_gt; exact He).
    rewrite Hn. apply round_half_even_nearest.
    apply Z.pow_pos_nonneg; lia.
Qed.

(** ** Summary metrics *)

Lemma tab_filters_empty_selection (loaded : list Observation) (w : Widgets) :
  w_condition w = Some [] \/ w_country w = Some [] \/
  w_city w = Some [] \/ w_ranges w = Some [] ->
  tab_filters loaded w = Ok ([], (0%nat, 0%nat, "–")).
Proof.
  intros Hsel. unfold tab_filters.
  destruct (add_temp_range_total loaded) as (rows & -> & _). simpl.
  match goal with
  | |- Ok (?f, _) = _ => assert (Hf : f = [])
  end.
  { apply filter_none. intros r _.
    destruct Hsel as [H | [H | [H | H]]]; rewrite H; simpl multiselect;
      rewrite isin_nil; rewrite ?andb_false_r; reflexivity. }
  rewrite Hf. reflexivity.
Qed.

(** C6 (amended). On the empty frame the metrics are 0 cities, 0 records
    and the placeholder "–" (which is neither a number nor "nan"), and this
    is what the tab shows whenever a selection is empty.  On a non-empty
    frame the third metric is the mean under [.2f]; when that mean is finite
    it is printed with exactly two decimals, rounded to the nearest
    hundredth. *)
Theorem summary_metrics_placeholder_or_two_decimals :
  summary_metrics [] = (0%nat, 0%nat, "–") /\
  two_decimals "–" = false /\
  "–" <> format_2f S754_nan /\
  (forall (loaded : list Observation) (w : Widgets),
     w_condition w = Some [] \/ w_country w = Some [] \/
     w_city w = Some [] \/ w_ranges w = Some [] ->
     tab_filters loaded w = Ok ([], (0%nat, 0%nat, "–"))) /\
  (forall f : list Row,
     f <> [] ->
     summary_metrics f =
       (nunique (List.map (fun r => city_name (obs r)) f),
        length f,
        format_2f (mean (List.map (fun r => temp (obs r)) f))) /\
     (is_finite (mean (List.map (fun r => temp (obs r)) f)) = true ->
      two_decimals (snd (summary_metrics f)) = true)) /\
  (forall (m : positive) (e : Z),
     ((0 <= e)%Z -> hundredths m e = (Zpos m * 2 ^ e * 100)%Z) /\
     ((e < 0)%Z ->
      (Z.abs (2 * (hundredths m e * 2 ^ (- e) - Zpos m * 100)) <= 2 ^ (- e))%Z)).
Proof.
  repeat apply conj.
  - reflexivity.
  - reflexivity.
  - discriminate.
  - exact tab_filters_empty_selection.
  - intros f Hf. destruct f as [|r rest]; [contradiction|].
    split; [reflexivity|].
    intros Hfin. cbn [summary_metrics snd].
    now apply format_2f_two_decimals.
  - exact hundredths_nearest.
Qed.

(** One record at 12.345 degrees: the metric reads "12.35"
    ([12.345] is the binary64 value 12.3450000000000006394884621841). *)
Lemma summary_metrics_placeholder_or_two_decimals_witness :
  two_decimals
    (snd (summary_metrics
            [mkRow (mkObservation 1 (PyFloat (float_of_decimal 12345 3))
                      738000 "A" "BR" "Clear") From10To20])) = true.
Proof.
  destruct summary_metrics_placeholder_or_two_decimals as (_ & _ & _ & _ & H & _).
  apply H.
  - discriminate.
  - vm_compute. reflexivity.
Defined.

Example summary_metrics_12_345 :
  summary_metrics
    [mkRow (mkObservation 1 (PyFloat (float_of_decimal 12345 3))
              738000 "A" "BR" "Clear") From10To20] = (1%nat, 1%nat, "12.35").
Proof. vm_compute. reflexivity. Qed.

(** C6, as stated, fails: a non-empty frame whose temperatures are all null
    (one observation without a temperature, first render) shows "nan",
    which is not a number with two decimals. *)
Lemma summary_metrics_all_null_counterexample :
  tab_filters [mkObservation 1 PyNone 738000 "A" "BR" "Rain"] first_render =
    Ok ([mkRow (mkObservation 1 PyNone 738000 "A" "BR" "Rain") Unknown],
        (1%nat, 1%nat, "nan")) /\
  two_decimals "nan" = false /\
  ~ (forall f : list Row,
       f <> [] -> two_decimals (snd (summary_metrics f)) = true).
Proof.
  split; [vm_compute; reflexivity|]. split; [reflexivity|].
  intros H.
  specialize (H [mkRow (mkObservation 1 PyNone 738000 "A" "BR" "Rain") Unknown]
                ltac:(discriminate)).
  vm_compute in H. discriminate.
Qed.

(** *** The mean metric on longer columns *)

(** Eight records: numpy adds the column in eight lanes and then as a
    tree, (25.6 + 24.0) + (-6.7 + -6.9) and so on; the mean is the binary64
    value 14.775000000000000355 and the metric reads "14.78".  Added from
    left to right the same column would give 14.774999999999998579. *)
Example summary_metrics_eight_records :
  summary_metrics
    (List.map
       (fun t => mkRow (mkObservation 1 (PyFloat (float_of_decimal t 1))
                          738000 "A" "BR" "Clear") From20To30)
       [256; 240; -67; -69; 274; 259; 58; 231]%Z)
  = (1%nat, 8%nat, "14.78") /\
  mean (List.map (fun t => PyFloat (float_of_decimal t 1))
          [256; 240; -67; -69; 274; 259; 58; 231]%Z)
  = S754_finite false 8317585561799885 (-49) /\
  SFdiv prec emax
    (fold_left (SFadd prec emax)
       (List.map (fun t => float_of_decimal t 1)
          [256; 240; -67; -69; 274; 259; 58; 231]%Z)
       (S754_zero false))
    (float_of_int 8)
  = S754_finite false 8317585561799884 (-49).
Proof. repeat split; vm_compute; reflexivity. Qed.

(** The same eight temperatures with a record without a temperature among
    them: the null cell takes part in the sum as 0.0 and moves the cells
    after it to other lanes; the mean over the eight temperatures is now
    14.774999999999998579 and the metric reads "14.77". *)
Example summary_metrics_null_among_eight :
  summary_metrics
    (List.map
       (fun t => mkRow (mkObservation 1 t 738000 "A" "BR" "Clear") From20To30)
       [PyFloat (float_of_decimal 256 1); PyFloat (float_of_decimal 240 1);
        PyFloat (float_of_decimal (-67) 1); PyNone;
        PyFloat (float_of_decimal (-69) 1); PyFloat (float_of_decimal 274 1);
        PyFloat (float_of_decimal 259 1); PyFloat (float_of_decimal 58 1);
        PyFloat (float_of_decimal 231 1)])
  = (1%nat, 9%nat, "14.77").
Proof. vm_compute. reflexivity. Qed.

(** Two hundred cells, -10.0, -9.9, ..., 9.9, every eleventh one null from
    the sixth on: the column is split into 96 and 104 cells. *)
Example mean_two_hundred_cells :
  mean (List.map
          (fun i => if Nat.eqb (i mod 11) 5 then PyNone
                    else PyFloat (float_of_decimal (Z.of_nat i - 100) 1))
          (seq 0 200))
  = S754_finite true 5780444356888779 (-57).
Proof. vm_compute. reflexivity. Qed.
(** ** The query functions *)

Lemma now_snoc (s : State) (e : event) (o : list nat) (c : gmap (string * list string) Table) :
  now (mkState (trace s ++ [e]) o c) = S (now s).
Proof. unfold now. simpl. rewrite length_app. simpl. lia. Qed.

(** The three possible runs of a body: the connection is refused; the
    statement raises; everything succeeds. *)
Lemma query_body_run (w : Warehouse) (cfg : DBConfig) (sql : string) (s : State) :
  query_body w cfg sql s =
    if accepts w (now s) cfg then
      match answer w (S (now s)) sql with
      | Some rows =>
          (Ok rows,
           mkState (trace s ++ [EvConnect cfg; EvExecute (now s) sql; EvClose (now s)])
                   (List.filter (fun c => negb (Nat.eqb c (now s))) (open_conns s))
                   (cache s))
      | None =>
          (Raise DatabaseError,
           mkState (trace s ++ [EvConnect cfg; EvExecute (now s) sql])
                   (now s :: open_conns s) (cache s))
      end
    else
      (Raise OperationalError,
       mkState (trace s ++ [EvConnect cfg]) (open_conns s) (cache s)).
Proof.
  unfold query_body, bind, connect.
  destruct (accepts w (now s) cfg); [|reflexivity].
  unfold execute. rewrite now_snoc. cbn [trace open_conns cache].
  destruct (answer w (S (now s)) sql) as [rows|].
  - unfold close, ret. cbn [trace open_conns cache List.filter].
    rewrite Nat.eqb_refl. cbn [negb].
    rewrite <- !app_assoc. reflexivity.
  - rewrite <- !app_assoc. reflexivity.
Qed.

Lemma body_of_query_body (w : Warehouse) (cfg : DBConfig) (c : call) :
  body_of w cfg c = query_body w cfg (sql_of c).
Proof. destruct c; reflexivity. Qed.

Lemma invoke_cache_data (w : Warehouse) (cfg : DBConfig) (c : call) :
  invoke w cfg c =
  cache_data (fst (cache_key c)) (snd (cache_key c)) (body_of w cfg c).
Proof. destruct c; reflexivity. Qed.

Lemma round_trips_app (s : State) (es : list event) (o : list nat)
    (c : gmap (string * list string) Table) :
  round_trips (mkState (trace s ++ es) o c) =
  (round_trips s +
   length (List.filter (fun e => match e with EvConnect _ => true | _ => false end) es))%nat.
Proof. unfold round_trips. simpl. now rewrite List.filter_app, List.length_app. Qed.

(** Every run of a body is one round trip, and leaves the cache alone. *)
Lemma query_body_one_round_trip (w : Warehouse) (cfg : DBConfig) (sql : string) (s : State) :
  round_trips (snd (query_body w cfg sql s)) = S (round_trips s) /\
  cache (snd (query_body w cfg sql s)) = cache s.
Proof.
  rewrite query_body_run.
  destruct (accepts w (now s) cfg); [destruct (answer w (S (now s)) sql)|];
    cbn [snd cache]; rewrite round_trips_app; simpl; split; (lia || reflexivity).
Qed.

Lemma filter_neq_not_In (t : nat) (l : list nat) :
  ~ In t (List.filter (fun c => negb (Nat.eqb c t)) l).
Proof.
  intros Hin. apply filter_In in Hin. destruct Hin as [_ Hne].
  now rewrite Nat.eqb_refl in Hne.
Qed.

Lemma filter_neq_incl (t : nat) (l : list nat) (k : nat) :
  In k (List.filter (fun c => negb (Nat.eqb c t)) l) -> In k l.
Proof. intros Hin. now apply filter_In in Hin. Qed.

(** C8 (amended). Each query function closes the connection it opened
    before it returns normally: the run is connect, one statement, close,
    and no connection is open afterwards that was not open before.  When
    the connection is refused there is nothing to release.  When the
    statement raises, the function is left before [close]: the connection
    stays open.  A cached call that returns leaves no new connection open. *)
Theorem query_functions_close_on_normal_return
    (w : Warehouse) (cfg : DBConfig) (c : call) (s : State) :
  match body_of w cfg c s with
  | (Ok rows, s') =>
      trace s' = trace s ++
        [EvConnect cfg; EvExecute (now s) (sql_of c); EvClose (now s)] /\
      ~ In (now s) (open_conns s') /\
      (forall k, In k (open_conns s') -> In k (open_conns s))
  | (Raise OperationalError, s') =>
      trace s' = trace s ++ [EvConnect cfg] /\
      open_conns s' = open_conns s
  | (Raise _, s') =>
      trace s' = trace s ++ [EvConnect cfg; EvExecute (now s) (sql_of c)] /\
      open_conns s' = now s :: open_conns s
  end /\
  match invoke w cfg c s with
  | (Ok rows, s') => forall k, In k (open_conns s') -> In k (open_conns s)
  | (Raise _, _) => True
  end.
Proof.
  assert (Hbody := query_body_run w cfg (sql_of c) s).
  rewrite <- body_of_query_body in Hbody.
  split.
  - rewrite Hbody.
    destruct (accepts w (now s) cfg); [destruct (answer w (S (now s)) (sql_of c))|];
      cbn [trace open_conns].
    + repeat split; [apply filter_neq_not_In | apply filter_neq_incl].
    + split; reflexivity.
    + split; reflexivity.
  - rewrite invoke_cache_data. unfold cache_data.
    destruct (cache s !! (fst (cache_key c), snd (cache_key c))) as [v|].
    + tauto.
    + rewrite Hbody.
      destruct (accepts w (now s) cfg); [destruct (answer w (S (now s)) (sql_of c))|];
        cbn [open_conns]; try exact I.
      apply filter_neq_incl.
Qed.

(** C8, as stated, fails on the error path: when the statement raises,
    [get_table_data] is left with its connection open and no [close] in the
    trace. *)
Lemma get_table_data_error_path_counterexample :
  fst (get_table_data failing_warehouse sample_config "fact" "temperature"
         initial_state) = Raise DatabaseError /\
  trace (snd (get_table_data failing_warehouse sample_config "fact" "temperature"
                initial_state)) =
    [EvConnect sample_config;
     EvExecute 0 (sql_table_data "fact" "temperature")] /\
  open_conns (snd (get_table_data failing_warehouse sample_config "fact"
                     "temperature" initial_state)) = [0%nat] /\
  fst (load_weather_data failing_warehouse sample_config initial_state) =
    Raise DatabaseError /\
  open_conns (snd (load_weather_data failing_warehouse sample_config
                     initial_state)) = [0%nat] /\
  fst (get_table_names failing_warehouse sample_config initial_state) =
    Raise DatabaseError /\
  open_conns (snd (get_table_names failing_warehouse sample_config
                     initial_state)) = [0%nat].
Proof. repeat split. Qed.
(** ** The cache *)

(** A hit: the stored value, no event, no change of state. *)
Lemma invoke_hit (w : Warehouse) (cfg : DBConfig) (c : call) (s : State) (v : Table) :
  cache s !! cache_key c = Some v -> invoke w cfg c s = (Ok v, s).
Proof.
  intros Hc. rewrite invoke_cache_data. unfold cache_data.
  rewrite <- surjective_pairing, Hc. reflexivity.
Qed.

(** A miss that returns: one round trip, and the value is stored under the
    key of the call, every other entry unchanged. *)
Lemma invoke_miss (w : Warehouse) (cfg : DBConfig) (c : call)
    (s s1 : State) (v : Table) :
  cache s !! cache_key c = None ->
  invoke w cfg c s = (Ok v, s1) ->
  round_trips s1 = S (round_trips s) /\
  cache s1 = <[cache_key c := v]> (cache s).
Proof.
  intros Hc. rewrite invoke_cache_data. unfold cache_data.
  rewrite <- surjective_pairing, Hc.
  destruct (query_body_one_round_trip w cfg (sql_of c) s) as [Hrt Hcache].
  rewrite <- body_of_query_body in Hrt, Hcache.
  destruct (body_of w cfg c s) as [[v'|e] s'] eqn:Hb; [|discriminate].
  intros Heq. inversion Heq; subst. clear Heq.
  cbn [snd] in Hrt, Hcache. split.
  - unfold round_trips in *. exact Hrt.
  - cbn [cache]. now rewrite Hcache.
Qed.

(** Distinct argument tuples always have distinct keys. *)
Lemma cache_key_inj (c1 c2 : call) : cache_key c1 = cache_key c2 -> c1 = c2.
Proof.
  destruct c1, c2; simpl; intros H; try discriminate; try reflexivity.
  inversion H. reflexivity.
Qed.

(** C9. Two calls of a cached query function with identical arguments,
    the first of which finds no entry and returns: the second returns the
    same value and changes nothing, so the two calls make exactly one round
    trip.  Two calls with different argument tuples (or of different
    functions), both missing and both returning: two round trips, and
    afterwards each value is stored under its own key. *)
Theorem cached_calls_round_trips (w : Warehouse) (cfg : DBConfig) :
  (forall (c : call) (s s1 : State) (v : Table),
     cache s !! cache_key c = None ->
     invoke w cfg c s = (Ok v, s1) ->
     invoke w cfg c s1 = (Ok v, s1) /\
     round_trips s1 = S (round_trips s)) /\
  (forall (c1 c2 : call) (s s1 s2 : State) (v1 v2 : Table),
     c1 <> c2 ->
     cache s !! cache_key c1 = None ->
     cache s !! cache_key c2 = None ->
     invoke w cfg c1 s = (Ok v1, s1) ->
     invoke w cfg c2 s1 = (Ok v2, s2) ->
     round_trips s2 = S (S (round_trips s)) /\
     cache s2 !! cache_key c1 = Some v1 /\
     cache s2 !! cache_key c2 = Some v2).
Proof.
  split.
  - intros c s s1 v Hmiss Hcall.
    destruct (invoke_miss w cfg c s s1 v Hmiss Hcall) as [Hrt Hcache].
    split; [|exact Hrt].
    apply invoke_hit. rewrite Hcache. apply lookup_insert_eq.
  - intros c1 c2 s s1 s2 v1 v2 Hcne Hm1 Hm2 Hcall1 Hcall2.
    assert (Hne : cache_key c1 <> cache_key c2)
      by (intros Heq; apply Hcne; now apply cache_key_inj).
    destruct (invoke_miss w cfg c1 s s1 v1 Hm1 Hcall1) as [Hrt1 Hcache1].
    assert (Hm2' : cache s1 !! cache_key c2 = None).
    { rewrite Hcache1. rewrite lookup_insert_ne by exact Hne. exact Hm2. }
    destruct (invoke_miss w cfg c2 s1 s2 v2 Hm2' Hcall2) as [Hrt2 Hcache2].
    repeat split.
    + lia.
    + rewrite Hcache2, Hcache1.
      rewrite lookup_insert_ne by (intros Heq; apply Hne; now symmetry).
      apply lookup_insert_eq.
    + rewrite Hcache2. apply lookup_insert_eq.
Qed.

(** Against a warehouse whose answer changes at every instant: the second
    call of [get_table_data("fact", "temperature")] returns the first
    call's value, and the process has made one round trip. *)
Lemma cached_calls_round_trips_witness :
  invoke changing_warehouse sample_config (GetTableData "fact" "temperature")
    (snd (invoke changing_warehouse sample_config
            (GetTableData "fact" "temperature") initial_state)) =
    (Ok [[CInt 1]],
     snd (invoke changing_warehouse sample_config
            (GetTableData "fact" "temperature") initial_state)) /\
  round_trips
    (snd (invoke changing_warehouse sample_config
            (GetTableData "fact" "temperature") initial_state)) = 1%nat.
Proof.
  apply (proj1 (cached_calls_round_trips changing_warehouse sample_config)
           (GetTableData "fact" "temperature") initial_state).
  - reflexivity.
  - reflexivity.
Defined.

Example distinct_arguments_distinct_keys :
  cache_key (GetTableData "fact" "temperature") <> cache_key (GetTableData "dim" "city") /\
  cache_key GetTableNames <> cache_key LoadWeatherData.
Proof. split; discriminate. Qed.

(** ** Connection parameters *)

Section ConfigFacts.

Variable int_of_str : string -> option Z.

(** Building [DB_CONFIG] looks at no variable but [DB_PORT]: whatever is
    missing becomes [None] in the record. *)
Lemma load_DB_CONFIG_run (env : gmap string string) :
  load_DB_CONFIG int_of_str env =
    match getenv_port int_of_str env with
    | Ok p => Ok (mkDBConfig (env !! "DB_HOST") p (env !! "DB_USER")
                             (env !! "DB_PASSWORD") (env !! "DB_NAME"))
    | Raise e => Raise e
    end.
Proof.
  unfold load_DB_CONFIG, rbind, getenv.
  destruct (getenv_port int_of_str env); reflexivity.
Qed.

Lemma getenv_port_cases (env : gmap string string) :
  (exists p, getenv_port int_of_str env = Ok p) \/
  getenv_port int_of_str env = Raise ValueError.
Proof.
  unfold getenv_port.
  destruct (getenv env "DB_PORT") as [s|]; [|left; eauto].
  destruct (int_of_str s); [left; eauto | right; reflexivity].
Qed.

Lemma get_table_names_miss_connects (w : Warehouse) (cfg : DBConfig) (s : State) :
  cache s !! cache_key GetTableNames = None ->
  exists rest,
    trace (snd (get_table_names w cfg s)) = trace s ++ EvConnect cfg :: rest.
Proof.
  intros Hmiss. unfold get_table_names, cache_data.
  change ("get_table_names", []) with (cache_key GetTableNames).
  rewrite Hmiss. unfold get_table_names_body. rewrite query_body_run.
  destruct (accepts w (now s) cfg);
    [destruct (answer w (S (now s)) sql_table_names)|];
    cbn [snd trace]; eexists; reflexivity.
Qed.

End ConfigFacts.

(** C7 (amended). No configuration check stands between the environment
    and the warehouse.  Unless [DB_PORT] is set to something [int] rejects
    (then the script stops with [ValueError] before any contact),
    [DB_CONFIG] is built without error, with [None] for each of [DB_HOST],
    [DB_USER], [DB_PASSWORD], [DB_NAME] that is not set, and the first query
    function passes exactly that record to [psycopg2.connect]. *)
Theorem missing_parameter_reaches_connect
    (int_of_str : string -> option Z) (w : Warehouse)
    (env : gmap string string) (s : State) :
  (exists p,
     getenv_port int_of_str env = Ok p /\
     load_DB_CONFIG int_of_str env =
       Ok (mkDBConfig (env !! "DB_HOST") p (env !! "DB_USER")
                      (env !! "DB_PASSWORD") (env !! "DB_NAME")) /\
     (cache s !! cache_key GetTableNames = None ->
      exists rest,
        trace (snd (script_start int_of_str w env s)) =
          trace s ++
          EvConnect (mkDBConfig (env !! "DB_HOST") p (env !! "DB_USER")
                                (env !! "DB_PASSWORD") (env !! "DB_NAME"))
          :: rest)) \/
  (getenv_port int_of_str env = Raise ValueError /\
   script_start int_of_str w env s = (Raise ValueError, s)).
Proof.
  destruct (getenv_port_cases int_of_str env) as [[p Hp] | Hp].
  - left. exists p. split; [exact Hp|].
    assert (Hcfg := load_DB_CONFIG_run int_of_str env). rewrite Hp in Hcfg.
    split; [exact Hcfg|].
    intros Hmiss. unfold script_start. rewrite Hcfg.
    now apply get_table_names_miss_connects.
  - right. split; [exact Hp|].
    unfold script_start. rewrite load_DB_CONFIG_run, Hp. reflexivity.
Qed.

(** With [DB_HOST] unset and a fresh process, against the warehouse that
    accepts connections: the first event is a connection attempt whose
    host is [None]. *)
Lemma missing_parameter_reaches_connect_witness :
  exists rest,
    trace (snd (script_start (fun _ => None) changing_warehouse
                  env_without_host initial_state)) =
      EvConnect (mkDBConfig None 5432 (Some "reader") (Some "secret")
                            (Some "warehouse")) :: rest.
Proof.
  destruct (missing_parameter_reaches_connect (fun _ => None) changing_warehouse
              env_without_host initial_state)
    as [(p & Hp & _ & Htrace) | [Hp _]].
  - assert (p = 5432%Z) by (vm_compute in Hp; congruence). subst p.
    apply Htrace. reflexivity.
  - vm_compute in Hp. discriminate.
Defined.

(** C7, as stated, fails: with [DB_HOST] missing nothing is raised when the
    configuration is built; the script goes on to connect with host [None],
    runs its statement and returns. *)
Lemma missing_host_counterexample :
  env_without_host !! "DB_HOST" = None /\
  load_DB_CONFIG (fun _ => None) env_without_host =
    Ok (mkDBConfig None 5432 (Some "reader") (Some "secret") (Some "warehouse")) /\
  fst (script_start (fun _ => None) changing_warehouse env_without_host
         initial_state) = Ok [[CInt 1]] /\
  trace (snd (script_start (fun _ => None) changing_warehouse env_without_host
                initial_state)) =
    [EvConnect (mkDBConfig None 5432 (Some "reader") (Some "secret")
                           (Some "warehouse"));
     EvExecute 0 sql_table_names;
     EvClose 0].
Proof. repeat split; vm_compute; reflexivity. Qed.
(* ===================================================================== *)
(** * Part III: further properties of the code                            *)
(* ===================================================================== *)

(** ** The categorizer, read backwards *)

Lemma buckets_distinct :
  Below10 <> Unknown /\ From10To20 <> Unknown /\ From20To30 <> Unknown /\
  AtLeast30 <> Unknown /\ Below10 <> From10To20 /\ Below10 <> From20To30 /\
  Below10 <> AtLeast30 /\ From10To20 <> From20To30 /\
  From10To20 <> AtLeast30 /\ From20To30 <> AtLeast30.
Proof. repeat split; discriminate. Qed.

Lemma categorize_unknown_null (temp : pyval) :
  categorize_temperature temp = Ok Unknown -> pd_isnull temp = true.
Proof.
  destruct temp as [|t]; [reflexivity|].
  simpl pd_isnull. destruct (is_nan t) eqn:Hnan; [reflexivity|].
  rewrite categorize_temperature_cascade by exact Hnan.
  destruct (SFltb t (float_of_int 10)); [discriminate|].
  destruct (SFltb t (float_of_int 20)); [discriminate|].
  destruct (SFltb t (float_of_int 30)); discriminate.
Qed.

(** X1. The bucket is "Unknown" exactly for the null temperatures. *)
Theorem categorize_temperature_unknown_iff_null (temp : pyval) :
  categorize_temperature temp = Ok Unknown <-> pd_isnull temp = true.
Proof.
  split; [apply categorize_unknown_null|].
  intros Hnull. unfold categorize_temperature. now rewrite Hnull.
Qed.

Lemma lt_threshold_mono (t : spec_float) (lo hi : Z) :
  SFltb (float_of_int lo) (float_of_int hi) = true ->
  SFltb t (float_of_int lo) = true -> SFltb t (float_of_int hi) = true.
Proof. intros Hc Ht. exact (SFltb_trans _ _ _ Ht Hc). Qed.

Lemma categorize_bucket_range (t : spec_float) :
  (categorize_temperature (PyFloat t) = Ok Below10 <->
     SFltb t (float_of_int 10) = true) /\
  (categorize_temperature (PyFloat t) = Ok From10To20 <->
     SFleb (float_of_int 10) t = true /\ SFltb t (float_of_int 20) = true) /\
  (categorize_temperature (PyFloat t) = Ok From20To30 <->
     SFleb (float_of_int 20) t = true /\ SFltb t (float_of_int 30) = true) /\
  (categorize_temperature (PyFloat t) = Ok AtLeast30 <->
     SFleb (float_of_int 30) t = true).
Proof.
  destruct (is_nan t) eqn:Hnan.
  - destruct t; try discriminate.
    repeat split; try discriminate; intros H; try discriminate;
      destruct H; discriminate.
  - rewrite categorize_temperature_cascade by exact Hnan.
    rewrite !(SFleb_negb_ltb _ t) by (assumption || reflexivity).
    pose proof (lt_threshold_mono t 10 20 eq_refl) as H12.
    pose proof (lt_threshold_mono t 20 30 eq_refl) as H23.
    destruct (SFltb t (float_of_int 10)) eqn:A;
      destruct (SFltb t (float_of_int 20)) eqn:B;
      destruct (SFltb t (float_of_int 30)) eqn:C;
      try (specialize (H12 eq_refl); discriminate);
      try (specialize (H23 eq_refl); discriminate);
      simpl; repeat split; intros; try discriminate; try reflexivity;
      try tauto;
      match goal with
      | H : _ /\ _ |- _ => destruct H; discriminate
      | H : Ok _ = Ok _ |- _ => inversion H
      end.
Qed.

(** X2. The bucket tells the range: a float is in "<10°C" exactly when it is
    below 10, in "10–20°C" exactly when [10 <= t < 20], in "20–30°C" exactly
    when [20 <= t < 30], in "≥30°C" exactly when [30 <= t]. *)
Theorem categorize_temperature_bucket_iff_range (t : spec_float) :
  (categorize_temperature (PyFloat t) = Ok Below10 <->
     SFltb t (float_of_int 10) = true) /\
  (categorize_temperature (PyFloat t) = Ok From10To20 <->
     SFleb (float_of_int 10) t = true /\ SFltb t (float_of_int 20) = true) /\
  (categorize_temperature (PyFloat t) = Ok From20To30 <->
     SFleb (float_of_int 20) t = true /\ SFltb t (float_of_int 30) = true) /\
  (categorize_temperature (PyFloat t) = Ok AtLeast30 <->
     SFleb (float_of_int 30) t = true).
Proof. exact (categorize_bucket_range t). Qed.

(** ** The bucket column *)

(** X3. [df["temp"].apply(categorize_temperature)] never raises, whatever
    the column holds (nulls included); it keeps every row in place, and
    each row's [temp_range] is the bucket of its own [temp], one of the
    five. *)
Theorem add_temp_range_never_raises (loaded : list Observation) :
  exists df,
    add_temp_range loaded = Ok df /\
    List.map obs df = loaded /\
    length df = length loaded /\
    Forall (fun r => categorize_temperature (temp (obs r)) = Ok (temp_range r) /\
                     In (temp_range r) buckets) df.
Proof.
  destruct (add_temp_range_total loaded) as (df & Hdf & Hmap & Hall).
  exists df. repeat split; try assumption.
  - rewrite <- Hmap. now rewrite length_map.
  - apply List.Forall_forall. intros r Hr.
    rewrite List.Forall_forall in Hall. specialize (Hall r Hr).
    split; [exact Hall|].
    destruct (categorize_temperature_returns (temp (obs r))) as (b & Hb & Hin).
    rewrite Hall in Hb. inversion Hb; subst. exact Hin.
Qed.
(** ** More on the filter *)

Lemma filter_filter {A : Type} (p q : A -> bool) (l : list A) :
  List.filter p (List.filter q l) = List.filter (fun x => q x && p x) l.
Proof.
  induction l as [|x rest IH]; [reflexivity|].
  simpl. destruct (q x); simpl; [destruct (p x)|]; now rewrite IH.
Qed.

Lemma filter_implies_sublist {A : Type} (p q : A -> bool) (l : list A) :
  (forall x, In x l -> p x = true -> q x = true) ->
  sublist (List.filter p l) (List.filter q l).
Proof.
  induction l as [|x rest IH]; intros Himp; simpl; [constructor|].
  assert (IH' : sublist (List.filter p rest) (List.filter q rest)).
  { apply IH. intros y Hy. apply Himp. now right. }
  destruct (p x) eqn:Hp.
  - rewrite (Himp x (or_introl eq_refl) Hp). now apply sublist_skip.
  - destruct (q x); [now apply sublist_cons | exact IH'].
Qed.

Lemma isin_incl (x : string) (small big : list string) :
  incl small big -> isin String.eqb x small = true -> isin String.eqb x big = true.
Proof. intros Hincl Hx. apply isin_In. apply Hincl. now apply isin_In. Qed.

(** X4. Selecting only the "Unknown" range on the frame of the tab keeps
    exactly rows without a temperature; when any row is kept, the mean
    metric reads "nan". *)
Theorem unknown_selection_shows_nan
    (loaded : list Observation) (df : list Row)
    (sel_condition sel_country sel_city : list string) :
  add_temp_range loaded = Ok df ->
  (forall r,
     In r (filtered_df df sel_condition sel_country sel_city [Unknown]) ->
     pd_isnull (temp (obs r)) = true) /\
  (filtered_df df sel_condition sel_country sel_city [Unknown] <> [] ->
   snd (summary_metrics
          (filtered_df df sel_condition sel_country sel_city [Unknown])) = "nan").
Proof.
  intros Hdf.
  destruct (add_temp_range_total loaded) as (df' & Hdf' & _ & Hall).
  rewrite Hdf in Hdf'. inversion Hdf'; subst df'. clear Hdf'.
  rewrite List.Forall_forall in Hall.
  assert (Hnull : forall r,
    In r (filtered_df df sel_condition sel_country sel_city [Unknown]) ->
    pd_isnull (temp (obs r)) = true).
  { intros r Hr. unfold filtered_df in Hr. apply filter_In in Hr.
    destruct Hr as [Hin Hp]. rewrite !andb_true_iff in Hp.
    destruct Hp as [_ Hrange]. apply isin_In in Hrange.
    destruct Hrange as [Hu | []].
    apply categorize_unknown_null. rewrite (Hall r Hin). now rewrite Hu. }
  split; [exact Hnull|].
  intros Hne.
  destruct (filtered_df df sel_condition sel_country sel_city [Unknown])
    as [|r rest] eqn:Hf; [contradiction|].
  cbn [summary_metrics snd].
  rewrite mean_all_null; [reflexivity|].
  apply List.Forall_forall. intros v Hv. apply in_map_iff in Hv.
  destruct Hv as (r' & <- & Hr'). now apply Hnull.
Qed.

(** The rows of two cities, one without a temperature: the "Unknown"
    selection keeps that row and the metric is "nan". *)
Lemma unknown_selection_shows_nan_witness :
  snd (summary_metrics
         (filtered_df
            [mkRow (mkObservation 1 PyNone 738000 "A" "BR" "Rain") Unknown;
             mkRow (mkObservation 2 (PyFloat (float_of_int 20)) 738000 "B" "BR" "Clear")
                   From20To30]
            ["Rain"; "Clear"] ["BR"] ["A"; "B"] [Unknown])) = "nan".
Proof.
  apply (unknown_selection_shows_nan
           [mkObservation 1 PyNone 738000 "A" "BR" "Rain";
            mkObservation 2 (PyFloat (float_of_int 20)) 738000 "B" "BR" "Clear"]).
  - vm_compute. reflexivity.
  - vm_compute. discriminate.
Defined.

(** X5. Filtering is idempotent, and two filters applied one after the
    other give the same frame in either order. *)
Theorem filtered_df_idempotent_commutes
    (df : list Row) (c1 n1 ci1 r1 c2 n2 ci2 r2 : list string) :
  filtered_df (filtered_df df c1 n1 ci1 r1) c1 n1 ci1 r1 =
    filtered_df df c1 n1 ci1 r1 /\
  filtered_df (filtered_df df c1 n1 ci1 r1) c2 n2 ci2 r2 =
    filtered_df (filtered_df df c2 n2 ci2 r2) c1 n1 ci1 r1.
Proof.
  unfold filtered_df. rewrite !filter_filter. split.
  - apply filter_ext. intros r. now rewrite andb_diag.
  - apply filter_ext. intros r. apply andb_comm.
Qed.

(** X6. Widening the selections never loses a row: with each selection
    included in a wider one, the filtered frame is a sub-frame (same order)
    of the frame filtered with the wider selections. *)
Theorem filtered_df_monotone
    (df : list Row) (c1 n1 ci1 r1 c2 n2 ci2 r2 : list string) :
  incl c1 c2 -> incl n1 n2 -> incl ci1 ci2 -> incl r1 r2 ->
  sublist (filtered_df df c1 n1 ci1 r1) (filtered_df df c2 n2 ci2 r2).
Proof.
  intros Hc Hn Hci Hr. unfold filtered_df.
  apply filter_implies_sublist. intros r _ Hp.
  rewrite !andb_true_iff in Hp |- *.
  destruct Hp as [[[H1 H2] H3] H4].
  repeat split; eapply isin_incl; eassumption.
Qed.

Lemma filtered_df_monotone_witness :
  sublist
    (filtered_df
       [mkRow (mkObservation 1 PyNone 738000 "A" "BR" "Rain") Unknown;
        mkRow (mkObservation 2 (PyFloat (float_of_int 20)) 738000 "B" "BR" "Clear")
              From20To30]
       ["Rain"] ["BR"] ["A"] [Unknown])
    (filtered_df
       [mkRow (mkObservation 1 PyNone 738000 "A" "BR" "Rain") Unknown;
        mkRow (mkObservation 2 (PyFloat (float_of_int 20)) 738000 "B" "BR" "Clear")
              From20To30]
       ["Rain"; "Clear"] ["BR"] ["A"; "B"] [Unknown; From20To30]).
Proof.
  apply filtered_df_monotone; intros x Hx; simpl in *; tauto.
Defined.

(** ** Distinct values *)

Section UniqueFacts.

Context {K : Type} (eqb : K -> K -> bool).
Hypothesis eqb_eq : forall x y, eqb x y = true <-> x = y.

Lemma unique_from_sublist (seen l : list K) : sublist (unique_from eqb seen l) l.
Proof.
  revert seen. induction l as [|x rest IH]; intros seen; simpl; [constructor|].
  destruct (isin eqb x seen); [apply sublist_cons | apply sublist_skip]; apply IH.
Qed.

Lemma unique_from_fixed (seen l : list K) :
  List.NoDup l -> (forall x, In x l -> ~ In x seen) ->
  unique_from eqb seen l = l.
Proof.
  revert seen. induction l as [|x rest IH]; intros seen Hnd Hdisj; [reflexivity|].
  inversion Hnd as [|? ? Hnotin Hnd']; subst. simpl.
  destruct (isin eqb x seen) eqn:Hx.
  - apply (isin_In_gen eqb eqb_eq) in Hx. exfalso.
    apply (Hdisj x); [now left | exact Hx].
  - f_equal. apply IH; [exact Hnd'|].
    intros y Hy [<- | Hseen]; [contradiction|].
    apply (Hdisj y); [now right | exact Hseen].
Qed.

Lemma isin_app (x : K) (l1 l2 : list K) :
  isin eqb x (l1 ++ l2) = isin eqb x l1 || isin eqb x l2.
Proof. unfold isin. apply existsb_app. Qed.

Lemma isin_cons (x y : K) (l : list K) :
  isin eqb x (y :: l) = eqb x y || isin eqb x l.
Proof. reflexivity. Qed.

(** Only the members of [seen] matter, not their order or number. *)
Lemma unique_from_ext (seen seen' l : list K) :
  (forall y, isin eqb y seen = isin eqb y seen') ->
  unique_from eqb seen l = unique_from eqb seen' l.
Proof.
  revert seen seen'. induction l as [|x rest IH]; intros seen seen' H; [reflexivity|].
  simpl. rewrite (H x). destruct (isin eqb x seen').
  - now apply IH.
  - f_equal. apply IH. intros y. rewrite !isin_cons. now rewrite H.
Qed.

(** Values seen before are the ones left out. *)
Lemma unique_from_filter (s1 s2 l : list K) :
  unique_from eqb (s1 ++ s2) l =
  List.filter (fun y => negb (isin eqb y s1)) (unique_from eqb s2 l).
Proof.
  revert s2. induction l as [|x rest IH]; intros s2; [reflexivity|].
  simpl. rewrite isin_app. destruct (isin eqb x s2) eqn:E2.
  - rewrite orb_true_r. apply IH.
  - rewrite orb_false_r. simpl List.filter. destruct (isin eqb x s1) eqn:E1; simpl negb; cbv iota.
    + rewrite <- IH. apply unique_from_ext. intros y.
      rewrite !isin_app, isin_cons.
      destruct (eqb y x) eqn:Eyx; [|reflexivity].
      apply eqb_eq in Eyx. subst y. now rewrite E1.
    + f_equal. rewrite <- IH. apply unique_from_ext. intros y.
      rewrite isin_cons, !isin_app, isin_cons.
      destruct (eqb y x), (isin eqb y s1), (isin eqb y s2); reflexivity.
Qed.

Lemma unique_cons (x : K) (l : list K) :
  unique eqb (x :: l) =
  x :: List.filter (fun y => negb (eqb y x)) (unique eqb l).
Proof.
  unfold unique. simpl. f_equal.
  change [x] with ([x] ++ []) at 1.
  rewrite (unique_from_filter [x] [] l).
  apply List.filter_ext. intros y. rewrite isin_cons. simpl.
  now rewrite orb_false_r.
Qed.

Lemma unique_from_snoc (seen l : list K) (x : K) :
  unique_from eqb seen (l ++ [x]) =
  unique_from eqb seen l ++
    (if isin eqb x seen || isin eqb x l then [] else [x]).
Proof.
  revert seen. induction l as [|x' rest IH]; intros seen.
  - simpl. rewrite orb_false_r. now destruct (isin eqb x seen).
  - cbn [app unique_from]. rewrite isin_cons.
    destruct (isin eqb x' seen) eqn:E.
    + rewrite IH.
      destruct (eqb x x') eqn:Exx; [|reflexivity].
      apply eqb_eq in Exx. subst x'. rewrite E. reflexivity.
    + rewrite IH, isin_cons. cbn [app].
      destruct (eqb x x'), (isin eqb x seen), (isin eqb x rest); reflexivity.
Qed.

Lemma unique_snoc (l : list K) (x : K) :
  unique eqb (l ++ [x]) =
  if isin eqb x l then unique eqb l else unique eqb l ++ [x].
Proof.
  unfold unique. rewrite unique_from_snoc. simpl.
  destruct (isin eqb x l); [apply app_nil_r | reflexivity].
Qed.

End UniqueFacts.

(** X7. The options of a multiselect ([Series.unique()]): no value twice,
    exactly the values of the column, in the order of their first
    appearance; taking the distinct values again changes nothing.  The
    order: a value put in front of the column comes first and is then left
    out wherever it appeared later; a value added at the end of the column
    is added at the end of the options when it is new, and changes nothing
    when the column had it already.  The conditions Rain, Clear, Rain,
    Clouds, Clear give the options Rain, Clear, Clouds. *)
Theorem unique_options (column : list string) :
  List.NoDup (unique String.eqb column) /\
  (forall x, In x (unique String.eqb column) <-> In x column) /\
  sublist (unique String.eqb column) column /\
  unique String.eqb (unique String.eqb column) = unique String.eqb column /\
  (forall x,
     unique String.eqb (x :: column) =
     x :: List.filter (fun y => negb (String.eqb y x)) (unique String.eqb column)) /\
  (forall x,
     unique String.eqb (column ++ [x]) =
     if isin String.eqb x column then unique String.eqb column
     else unique String.eqb column ++ [x]) /\
  unique String.eqb [] = [] /\
  unique String.eqb ["Rain"; "Clear"; "Rain"; "Clouds"; "Clear"] =
    ["Rain"; "Clear"; "Clouds"].
Proof.
  repeat split.
  - apply unique_NoDup. exact String.eqb_eq.
  - apply (unique_In _ String.eqb_eq).
  - apply (unique_In _ String.eqb_eq).
  - apply unique_from_sublist.
  - apply (unique_from_fixed _ String.eqb_eq).
    + apply unique_NoDup. exact String.eqb_eq.
    + intros x _ [].
  - intros x. apply (unique_cons _ String.eqb_eq).
  - intros x. apply (unique_snoc _ String.eqb_eq).
Qed.

(** ** Bounds on the metrics *)

Lemma nunique_le_length (l : list string) : (nunique l <= length l)%nat.
Proof.
  unfold nunique. apply List.NoDup_incl_length.
  - apply unique_NoDup. exact String.eqb_eq.
  - intros x Hx. exact (proj1 (unique_In _ String.eqb_eq _ _) Hx).
Qed.

(** X8. The metrics of the filtered frame: the number of cities is at most
    the number of records, and is 0 only for the empty frame; the number of
    records is at most that of the unfiltered frame; the number of cities
    is at most the number of selected cities. *)
Theorem summary_metrics_bounds
    (df : list Row) (sel_condition sel_country sel_city sel_ranges : list string) :
  (fst (fst (summary_metrics
               (filtered_df df sel_condition sel_country sel_city sel_ranges)))
   <= snd (fst (summary_metrics
                  (filtered_df df sel_condition sel_country sel_city sel_ranges))))%nat /\
  (fst (fst (summary_metrics
               (filtered_df df sel_condition sel_country sel_city sel_ranges))) = 0%nat <->
   filtered_df df sel_condition sel_country sel_city sel_ranges = []) /\
  (snd (fst (summary_metrics
               (filtered_df df sel_condition sel_country sel_city sel_ranges)))
   <= length df)%nat /\
  (fst (fst (summary_metrics
               (filtered_df df sel_condition sel_country sel_city sel_ranges)))
   <= length sel_city)%nat.
Proof.
  set (f := filtered_df df sel_condition sel_country sel_city sel_ranges).
  cbn [summary_metrics fst snd]. repeat split.
  - rewrite <- (length_map (fun r => city_name (obs r)) f). apply nunique_le_length.
  - intros H0. destruct f as [|r rest]; [reflexivity|].
    unfold nunique, unique in H0. simpl in H0. discriminate.
  - intros ->. reflexivity.
  - unfold f, filtered_df. apply List.filter_length_le.
  - unfold nunique. apply List.NoDup_incl_length.
    + apply unique_NoDup. exact String.eqb_eq.
    + intros x Hx. apply (proj1 (unique_In _ String.eqb_eq _ _)) in Hx.
      apply in_map_iff in Hx. destruct Hx as (r & <- & Hr).
      unfold f, filtered_df in Hr. apply filter_In in Hr.
      destruct Hr as [_ Hp]. rewrite !andb_true_iff in Hp.
      destruct Hp as [[[_ _] Hc] _]. now apply isin_In.
Qed.

(** ** One row per group *)

Lemma groupby_mean_keys {K : Type} (eqb leb : K -> K -> bool) (key : Row -> K)
    (df : list Row) :
  List.map fst (groupby_mean eqb leb key df) =
  sort leb (unique eqb (List.map key df)).
Proof.
  unfold groupby_mean. rewrite map_map. simpl. apply map_id.
Qed.

(** X9. Each chart has exactly one entry per distinct key of the frame: the
    cities of the bar chart are the distinct cities, each once; the dates of
    the line chart are the distinct dates, each once. *)
Theorem charts_one_entry_per_key (df : list Row) :
  Permutation (List.map fst (temp_by_city df))
              (unique String.eqb (List.map (fun r => city_name (obs r)) df)) /\
  List.NoDup (List.map fst (temp_by_city df)) /\
  length (temp_by_city df) = nunique (List.map (fun r => city_name (obs r)) df) /\
  Permutation (List.map fst (temp_over_time df))
              (unique Z.eqb (List.map (fun r => full_date (obs r)) df)) /\
  List.NoDup (List.map fst (temp_over_time df)).
Proof.
  assert (Hc : Permutation (List.map fst (temp_by_city df))
     (unique String.eqb (List.map (fun r => city_name (obs r)) df))).
  { unfold temp_by_city.
    rewrite (Permutation_map fst (sort_values_desc_perm _)).
    rewrite groupby_mean_keys. apply sort_perm. }
  assert (Hd : Permutation (List.map fst (temp_over_time df))
     (unique Z.eqb (List.map (fun r => full_date (obs r)) df))).
  { unfold temp_over_time. rewrite groupby_mean_keys. apply sort_perm. }
  repeat split.
  - exact Hc.
  - apply (Permutation.Permutation_NoDup (Permutation_sym Hc)).
    apply unique_NoDup. exact String.eqb_eq.
  - rewrite <- (length_map fst). unfold nunique.
    now apply Permutation_length.
  - exact Hd.
  - apply (Permutation.Permutation_NoDup (Permutation_sym Hd)).
    apply unique_NoDup. exact Z.eqb_eq.
Qed.
(** ** The statement of [get_table_data] *)

Lemma append_cancel_l (p a b : string) : p +:+ a = p +:+ b -> a = b.
Proof.
  induction p as [|c p IH]; simpl; intros H; [exact H|].
  inversion H. now apply IH.
Qed.

Lemma length_append (a b : string) :
  String.length (a +:+ b) = (String.length a + String.length b)%nat.
Proof. induction a as [|c a IH]; simpl; [reflexivity | now rewrite IH]. Qed.

Lemma append_cancel_r (a b x : string) : a +:+ x = b +:+ x -> a = b.
Proof.
  revert b. induction a as [|c a IH]; intros [|d b] H; simpl in H.
  - reflexivity.
  - exfalso. apply (f_equal String.length) in H.
    rewrite ?length_append in H. simpl in H. rewrite ?length_append in H. lia.
  - exfalso. apply (f_equal String.length) in H.
    rewrite ?length_append in H. simpl in H. rewrite ?length_append in H. lia.
  - inversion H. f_equal. now apply IH.
Qed.

(** Two strings without a given character, each followed by that
    character: the first occurrence splits them the same way. *)
Lemma split_at_first (c : ascii) (a b ra rb : string) :
  contains_char c a = false -> contains_char c b = false ->
  a +:+ String c ra = b +:+ String c rb -> a = b /\ ra = rb.
Proof.
  revert b. induction a as [|x a IH]; intros [|y b] Ha Hb H; simpl in *.
  - inversion H. split; reflexivity.
  - inversion H; subst. rewrite Ascii.eqb_refl in Hb. discriminate.
  - inversion H; subst. rewrite Ascii.eqb_refl in Ha. discriminate.
  - inversion H; subst.
    apply orb_false_iff in Ha, Hb. destruct Ha as [_ Ha]. destruct Hb as [_ Hb].
    destruct (IH b Ha Hb H2) as [-> ->]. split; reflexivity.
Qed.

(** X10. For schema names without a double quote, the statement of
    [get_table_data] determines its arguments: two calls send the same SQL
    text only if they name the same schema and the same table. *)
Theorem sql_table_data_injective (schema1 table1 schema2 table2 : string) :
  has_dquote schema1 = false -> has_dquote schema2 = false ->
  sql_table_data schema1 table1 = sql_table_data schema2 table2 ->
  schema1 = schema2 /\ table1 = table2.
Proof.
  unfold has_dquote, sql_table_data, dquote. intros H1 H2 Heq.
  apply append_cancel_l in Heq.
  change (String (ascii_of_nat 34) "" +:+ ?x) with (String (ascii_of_nat 34) x) in Heq.
  inversion Heq as [Heq']. clear Heq.
  destruct (split_at_first _ _ _ _ _ H1 H2 Heq') as [-> Hrest].
  split; [reflexivity|].
  apply (append_cancel_l ("." +:+ String (ascii_of_nat 34) "")) in Hrest.
  now apply append_cancel_r in Hrest.
Qed.

Lemma sql_table_data_injective_witness :
  "fact" = "fact" /\ "temperature" = "temperature".
Proof.
  apply (sql_table_data_injective "fact" "temperature" "fact" "temperature");
    reflexivity.
Defined.

(** Without the hypothesis the text does not tell the arguments apart: the
    double quote is not escaped. *)
Example sql_table_data_quote_collision :
  sql_table_data ("a" +:+ dquote +:+ "." +:+ dquote +:+ "b") "c" =
  sql_table_data "a" ("b" +:+ dquote +:+ "." +:+ dquote +:+ "c").
Proof. reflexivity. Qed.

(** ** Open connections *)

Lemma filter_past_ids (t : nat) (l : list nat) :
  forallb (fun c => (c <? t)%nat) l = true ->
  List.filter (fun c => negb (Nat.eqb c t)) l = l.
Proof.
  intros Hall. apply filter_all. intros c Hc.
  rewrite forallb_forall in Hall. specialize (Hall c Hc).
  apply Nat.ltb_lt in Hall. apply negb_true_iff, Nat.eqb_neq. lia.
Qed.

Lemma forallb_past_mono (t t' : nat) (l : list nat) :
  (t <= t')%nat ->
  forallb (fun c => (c <? t)%nat) l = true ->
  forallb (fun c => (c <? t')%nat) l = true.
Proof.
  intros Hle Hall. rewrite forallb_forall in Hall |- *.
  intros c Hc. specialize (Hall c Hc). apply Nat.ltb_lt in Hall.
  apply Nat.ltb_lt. lia.
Qed.

Lemma now_app (s : State) (es : list event) (o : list nat)
    (c : gmap (string * list string) Table) :
  now (mkState (trace s ++ es) o c) = (now s + length es)%nat.
Proof. unfold now. simpl. now rewrite List.length_app. Qed.

(** On a state whose connection names lie in the past, a body leaves the
    open connections exactly as they were, except that a statement that
    raises adds the one it opened. *)
Lemma query_body_open_conns (w : Warehouse) (cfg : DBConfig) (sql : string) (s : State) :
  ids_in_past s = true ->
  ids_in_past (snd (query_body w cfg sql s)) = true /\
  match fst (query_body w cfg sql s) with
  | Raise DatabaseError =>
      open_conns (snd (query_body w cfg sql s)) = now s :: open_conns s
  | _ => open_conns (snd (query_body w cfg sql s)) = open_conns s
  end.
Proof.
  unfold ids_in_past. intros Hpast. rewrite query_body_run.
  destruct (accepts w (now s) cfg); [destruct (answer w (S (now s)) sql)|];
    cbn [fst snd open_conns]; rewrite now_app; cbn [length].
  - rewrite (filter_past_ids _ _ Hpast). split; [|reflexivity].
    apply (forallb_past_mono (now s)); [lia | exact Hpast].
  - split; [|reflexivity]. cbn [forallb]. apply andb_true_iff. split.
    + apply Nat.ltb_lt. lia.
    + apply (forallb_past_mono (now s)); [lia | exact Hpast].
  - split; [|reflexivity].
    apply (forallb_past_mono (now s)); [lia | exact Hpast].
Qed.

Lemma invoke_open_conns (w : Warehouse) (cfg : DBConfig) (c : call) (s : State) :
  ids_in_past s = true ->
  ids_in_past (snd (invoke w cfg c s)) = true /\
  match fst (invoke w cfg c s) with
  | Raise DatabaseError =>
      open_conns (snd (invoke w cfg c s)) = now s :: open_conns s
  | _ => open_conns (snd (invoke w cfg c s)) = open_conns s
  end.
Proof.
  intros Hpast. rewrite invoke_cache_data. unfold cache_data.
  destruct (cache s !! (fst (cache_key c), snd (cache_key c))) as [v|].
  - cbn [fst snd]. split; [exact Hpast | reflexivity].
  - pose proof (query_body_open_conns w cfg (sql_of c) s Hpast) as [Hp Hopen].
    rewrite <- body_of_query_body in Hp, Hopen.
    destruct (body_of w cfg c s) as [[v|e] s'] eqn:Hb; cbn [fst snd] in *.
    + split; [|exact Hopen]. unfold ids_in_past, now in *. exact Hp.
    + split; [exact Hp | exact Hopen].
Qed.

(** X11. In a process whose open connections were all opened in the past
    (as from its start), a query function that returns leaves the open
    connections exactly as they were; so does one whose connection is
    refused; one whose statement raises leaves exactly one more, its own. *)
Theorem query_functions_open_connections
    (w : Warehouse) (cfg : DBConfig) (c : call) (s : State) :
  ids_in_past s = true ->
  ids_in_past (snd (invoke w cfg c s)) = true /\
  match fst (invoke w cfg c s) with
  | Raise DatabaseError =>
      open_conns (snd (invoke w cfg c s)) = now s :: open_conns s
  | _ => open_conns (snd (invoke w cfg c s)) = open_conns s
  end.
Proof. apply invoke_open_conns. Qed.

Lemma query_functions_open_connections_witness :
  ids_in_past (snd (invoke changing_warehouse sample_config LoadWeatherData
                      initial_state)) = true /\
  match fst (invoke changing_warehouse sample_config LoadWeatherData initial_state) with
  | Raise DatabaseError =>
      open_conns (snd (invoke changing_warehouse sample_config LoadWeatherData
                         initial_state)) = now initial_state :: open_conns initial_state
  | _ => open_conns (snd (invoke changing_warehouse sample_config LoadWeatherData
                            initial_state)) = open_conns initial_state
  end.
Proof.
  apply (query_functions_open_connections changing_warehouse sample_config
           LoadWeatherData initial_state).
  reflexivity.
Defined.
(** ** The cache over many calls *)

(** What a call does to the cache: nothing on a hit or on a raise; on a
    miss that returns, one new entry under its own key. *)
Lemma invoke_cache_effect (w : Warehouse) (cfg : DBConfig) (c : call) (s : State) :
  match cache s !! cache_key c, fst (invoke w cfg c s) with
  | None, Ok v => cache (snd (invoke w cfg c s)) = <[cache_key c := v]> (cache s)
  | _, _ => cache (snd (invoke w cfg c s)) = cache s
  end.
Proof.
  rewrite invoke_cache_data. unfold cache_data.
  rewrite <- surjective_pairing.
  destruct (cache s !! cache_key c) as [v|] eqn:Hc.
  - reflexivity.
  - destruct (query_body_one_round_trip w cfg (sql_of c) s) as [_ Hcache].
    rewrite <- body_of_query_body in Hcache.
    destruct (body_of w cfg c s) as [[v|e] s']; cbn [fst snd cache] in *.
    + now rewrite Hcache.
    + exact Hcache.
Qed.

Lemma invoke_keeps_entry (w : Warehouse) (cfg : DBConfig) (c : call) (s : State)
    (k : string * list string) (v : Table) :
  cache s !! k = Some v -> cache (snd (invoke w cfg c s)) !! k = Some v.
Proof.
  intros Hk. pose proof (invoke_cache_effect w cfg c s) as Heff.
  destruct (cache s !! cache_key c) as [v'|] eqn:Hc.
  - now rewrite Heff.
  - destruct (fst (invoke w cfg c s)); rewrite Heff; [|exact Hk].
    rewrite lookup_insert_ne; [exact Hk|]. intros <-. congruence.
Qed.

Lemma run_calls_keeps_entry (w : Warehouse) (cfg : DBConfig) (cs : list call)
    (s : State) (k : string * list string) (v : Table) :
  cache s !! k = Some v -> cache (run_calls w cfg cs s) !! k = Some v.
Proof.
  revert s. induction cs as [|c rest IH]; intros s Hk; [exact Hk|].
  simpl. apply IH. now apply invoke_keeps_entry.
Qed.

(** X12. The cache never drops or replaces an entry: once a call has its
    value stored, every later identical call returns that value and
    contacts nothing, whatever calls were made in between and whatever the
    warehouse would answer now. *)
Theorem cached_value_is_kept (w : Warehouse) (cfg : DBConfig)
    (c : call) (v : Table) (cs : list call) (s : State) :
  cache s !! cache_key c = Some v ->
  invoke w cfg c (run_calls w cfg cs s) = (Ok v, run_calls w cfg cs s).
Proof.
  intros Hc. apply invoke_hit. now apply run_calls_keeps_entry.
Qed.

(** The weather frame loaded at instant 1 is still what a call returns
    after the two other functions have been called, although the warehouse
    answers differently at every instant. *)
Lemma cached_value_is_kept_witness :
  invoke changing_warehouse sample_config LoadWeatherData
    (run_calls changing_warehouse sample_config
       [GetTableNames; GetTableData "fact" "temperature"]
       (snd (invoke changing_warehouse sample_config LoadWeatherData initial_state))) =
  (Ok [[CInt 1]],
   run_calls changing_warehouse sample_config
     [GetTableNames; GetTableData "fact" "temperature"]
     (snd (invoke changing_warehouse sample_config LoadWeatherData initial_state))).
Proof.
  apply (cached_value_is_kept changing_warehouse sample_config LoadWeatherData).
  reflexivity.
Defined.

Lemma invoke_miss_round_trip (w : Warehouse) (cfg : DBConfig) (c : call) (s : State) :
  cache s !! cache_key c = None ->
  round_trips (snd (invoke w cfg c s)) = S (round_trips s).
Proof.
  intros Hc. rewrite invoke_cache_data. unfold cache_data.
  rewrite <- surjective_pairing, Hc.
  destruct (query_body_one_round_trip w cfg (sql_of c) s) as [Hrt _].
  rewrite <- body_of_query_body in Hrt.
  destruct (body_of w cfg c s) as [[v|e] s']; cbn [snd] in *; exact Hrt.
Qed.

(** X13. A call that raises stores nothing: the cache is as before, and
    the same call made again goes to the warehouse again (two round trips
    for the two calls). *)
Theorem failed_call_is_not_cached (w : Warehouse) (cfg : DBConfig)
    (c : call) (s s1 : State) (e : exn) :
  cache s !! cache_key c = None ->
  invoke w cfg c s = (Raise e, s1) ->
  cache s1 = cache s /\
  round_trips s1 = S (round_trips s) /\
  round_trips (snd (invoke w cfg c s1)) = S (S (round_trips s)).
Proof.
  intros Hc Hcall.
  pose proof (invoke_cache_effect w cfg c s) as Heff.
  pose proof (invoke_miss_round_trip w cfg c s Hc) as Hrt.
  rewrite Hc, Hcall in Heff. rewrite Hcall in Hrt. cbn [fst snd] in *.
  repeat split; [exact Heff | exact Hrt |].
  rewrite invoke_miss_round_trip; [now rewrite Hrt | now rewrite Heff].
Qed.

Lemma failed_call_is_not_cached_witness :
  cache (snd (invoke failing_warehouse sample_config LoadWeatherData initial_state))
    = cache initial_state /\
  round_trips (snd (invoke failing_warehouse sample_config LoadWeatherData
                      initial_state)) = S (round_trips initial_state) /\
  round_trips
    (snd (invoke failing_warehouse sample_config LoadWeatherData
            (snd (invoke failing_warehouse sample_config LoadWeatherData
                    initial_state)))) = S (S (round_trips initial_state)).
Proof.
  apply (failed_call_is_not_cached failing_warehouse sample_config LoadWeatherData
           initial_state _ DatabaseError).
  - reflexivity.
  - reflexivity.
Defined.

Lemma call_eqb_eq (c1 c2 : call) : call_eqb c1 c2 = true <-> c1 = c2.
Proof.
  destruct c1 as [|s1 t1|], c2 as [|s2 t2|]; simpl;
    try (split; [discriminate | discriminate]); try tauto.
  rewrite andb_true_iff, !String.eqb_eq. split.
  - intros [-> ->]. reflexivity.
  - intros H. inversion H. tauto.
Qed.

Lemma always_answers_returns (w : Warehouse) (cfg : DBConfig) (c : call) (s : State) :
  always_answers w -> exists v, fst (invoke w cfg c s) = Ok v.
Proof.
  intros [Hacc Hans]. rewrite invoke_cache_data. unfold cache_data.
  destruct (cache s !! (fst (cache_key c), snd (cache_key c))) as [v|]; [eauto|].
  rewrite body_of_query_body, query_body_run, Hacc.
  destruct (Hans (S (now s)) (sql_of c)) as [rows ->]. eauto.
Qed.

(** Round trips of a sequence of calls, from a state whose cached calls
    are listed in [seen]. *)
Lemma run_calls_round_trips (w : Warehouse) (cfg : DBConfig) (cs : list call) :
  always_answers w ->
  forall (s : State) (seen : list call),
    (forall c, In c seen <-> cache s !! cache_key c <> None) ->
    round_trips (run_calls w cfg cs s) =
    (round_trips s + length (unique_from call_eqb seen cs))%nat.
Proof.
  intros Hw. induction cs as [|c rest IH]; intros s seen Hseen; simpl.
  - lia.
  - pose proof (invoke_cache_effect w cfg c s) as Heff.
    destruct (isin call_eqb c seen) eqn:Hin.
    + apply (isin_In_gen call_eqb call_eqb_eq) in Hin. apply Hseen in Hin.
      destruct (cache s !! cache_key c) as [v|] eqn:Hc; [|congruence].
      rewrite (invoke_hit w cfg c s v Hc). cbn [snd]. now apply IH.
    + assert (Hc : cache s !! cache_key c = None).
      { destruct (cache s !! cache_key c) eqn:Hc; [|reflexivity].
        assert (Hs : In c seen) by (apply Hseen; congruence).
        apply (isin_In_gen call_eqb call_eqb_eq) in Hs. congruence. }
      rewrite Hc in Heff.
      destruct (always_answers_returns w cfg c s Hw) as [v Hv].
      rewrite Hv in Heff.
      rewrite (IH _ (c :: seen)).
      * rewrite (invoke_miss_round_trip w cfg c s Hc). simpl. lia.
      * intros c'. rewrite Heff. simpl. split.
        -- intros [<- | Hs].
           ++ now rewrite lookup_insert_eq.
           ++ destruct (decide (cache_key c = cache_key c')) as [Heq | Hne].
              ** rewrite Heq. now rewrite lookup_insert_eq.
              ** rewrite lookup_insert_ne by exact Hne. now apply Hseen.
        -- intros Hl.
           destruct (decide (cache_key c = cache_key c')) as [Heq | Hne].
           ++ left. now apply cache_key_inj.
           ++ right. rewrite lookup_insert_ne in Hl by exact Hne. now apply Hseen.
Qed.

(** X14. Against a warehouse that accepts every connection and answers
    every statement, a process started with an empty cache makes exactly
    one round trip per distinct call, however many calls it makes and in
    whatever order. *)
Theorem round_trips_are_distinct_calls (w : Warehouse) (cfg : DBConfig)
    (cs : list call) :
  always_answers w ->
  round_trips (run_calls w cfg cs initial_state) = length (unique call_eqb cs).
Proof.
  intros Hw. rewrite (run_calls_round_trips w cfg cs Hw initial_state []).
  - reflexivity.
  - intros c. simpl. split; [tauto|]. intros H. apply H. apply lookup_empty.
Qed.

Lemma changing_warehouse_always_answers : always_answers changing_warehouse.
Proof. split; [reflexivity|]. intros t sql. eexists. reflexivity. Qed.

(** Two reruns of the script's three kinds of call: six calls, three round
    trips. *)
Lemma round_trips_are_distinct_calls_witness :
  round_trips
    (run_calls changing_warehouse sample_config
       [GetTableNames; GetTableData "fact" "temperature"; LoadWeatherData;
        LoadWeatherData; GetTableNames; GetTableData "fact" "temperature"]
       initial_state) = 3%nat.
Proof.
  apply (round_trips_are_distinct_calls changing_warehouse sample_config
           [GetTableNames; GetTableData "fact" "temperature"; LoadWeatherData;
            LoadWeatherData; GetTableNames; GetTableData "fact" "temperature"]).
  exact changing_warehouse_always_answers.
Defined.
(** ** The table browser *)

Lemma show_table_run (w : Warehouse) (cfg : DBConfig) (name : string * string) (s : State) :
  show_table w cfg name s =
    (Ok (match fst (invoke w cfg (GetTableData (fst name) (snd name)) s) with
         | Ok df => Shown df
         | Raise e => Failed e
         end),
     snd (invoke w cfg (GetTableData (fst name) (snd name)) s)).
Proof.
  unfold show_table. cbn [invoke].
  destruct (get_table_data w cfg (fst name) (snd name) s) as [[df|e] s']; reflexivity.
Qed.

Lemma browse_tables_cons (w : Warehouse) (cfg : DBConfig)
    (name : string * string) (rest : list (string * string)) (s : State) :
  browse_tables w cfg (name :: rest) s =
    match browse_tables w cfg rest
            (snd (invoke w cfg (GetTableData (fst name) (snd name)) s)) with
    | (Ok ds, s') =>
        (Ok (match fst (invoke w cfg (GetTableData (fst name) (snd name)) s) with
             | Ok df => Shown df
             | Raise e => Failed e
             end :: ds), s')
    | (Raise e, s') => (Raise e, s')
    end.
Proof.
  cbn [browse_tables]. unfold bind at 1. rewrite show_table_run.
  unfold bind, ret.
  destruct (browse_tables w cfg rest _) as [[ds|e] s']; reflexivity.
Qed.

Lemma round_trips_invoke_le (w : Warehouse) (cfg : DBConfig) (c : call) (s : State) :
  (round_trips (snd (invoke w cfg c s)) <= S (round_trips s))%nat.
Proof.
  destruct (cache s !! cache_key c) as [v|] eqn:Hc.
  - rewrite (invoke_hit w cfg c s v Hc). cbn [snd]. lia.
  - rewrite (invoke_miss_round_trip w cfg c s Hc). lia.
Qed.

(** The browser never raises; its final state is that of the calls of
    [get_table_data], one per listed table, in order. *)
Lemma browse_tables_run (w : Warehouse) (cfg : DBConfig)
    (tables : list (string * string)) (s : State) :
  exists ds,
    browse_tables w cfg tables s =
      (Ok ds,
       run_calls w cfg (List.map (fun n => GetTableData (fst n) (snd n)) tables) s) /\
    length ds = length tables.
Proof.
  revert s. induction tables as [|name rest IH]; intros s.
  - exists []. split; reflexivity.
  - rewrite browse_tables_cons.
    destruct (IH (snd (invoke w cfg (GetTableData (fst name) (snd name)) s)))
      as (ds & -> & Hlen).
    eexists. split; [reflexivity|]. simpl. now rewrite Hlen.
Qed.

Lemma run_calls_round_trips_le (w : Warehouse) (cfg : DBConfig) (cs : list call) (s : State) :
  (round_trips (run_calls w cfg cs s) <= round_trips s + length cs)%nat.
Proof.
  revert s. induction cs as [|c rest IH]; intros s; simpl; [lia|].
  specialize (IH (snd (invoke w cfg c s))).
  pose proof (round_trips_invoke_le w cfg c s). lia.
Qed.

(** X15. The loop over the listed tables never raises, whatever the
    warehouse does: it yields one expander per table, in order, each either
    the frame or the error of its own call; and it makes at most one round
    trip per table. *)
Theorem browse_tables_never_raises (w : Warehouse) (cfg : DBConfig)
    (tables : list (string * string)) (s : State) :
  exists ds,
    fst (browse_tables w cfg tables s) = Ok ds /\
    length ds = length tables /\
    (round_trips (snd (browse_tables w cfg tables s))
     <= round_trips s + length tables)%nat /\
    (forall name rest,
       tables = name :: rest ->
       exists ds',
         ds = match fst (get_table_data w cfg (fst name) (snd name) s) with
              | Ok df => Shown df
              | Raise e => Failed e
              end :: ds' /\
         fst (browse_tables w cfg rest
                (snd (get_table_data w cfg (fst name) (snd name) s))) = Ok ds').
Proof.
  destruct (browse_tables_run w cfg tables s) as (ds & Hrun & Hlen).
  exists ds. rewrite Hrun. cbn [fst snd]. repeat split.
  - exact Hlen.
  - rewrite <- (length_map (fun n => GetTableData (fst n) (snd n)) tables).
    apply run_calls_round_trips_le.
  - intros name rest ->. rewrite browse_tables_cons in Hrun.
    destruct (browse_tables_run w cfg rest
                (snd (invoke w cfg (GetTableData (fst name) (snd name)) s)))
      as (ds' & Hrun' & _).
    rewrite Hrun' in Hrun. inversion Hrun; subst.
    exists ds'. split; [reflexivity|].
    cbn [invoke] in Hrun'. now rewrite Hrun'.
Qed.

(** Two tables against the warehouse that rejects every statement: two
    expanders, both errors. *)
Lemma browse_tables_never_raises_witness :
  exists ds',
    [Failed DatabaseError; Failed DatabaseError] =
      match fst (get_table_data failing_warehouse sample_config "fact" "temperature"
                   initial_state) with
      | Ok df => Shown df
      | Raise e => Failed e
      end :: ds' /\
    fst (browse_tables failing_warehouse sample_config [("dim", "city")]
           (snd (get_table_data failing_warehouse sample_config "fact" "temperature"
                   initial_state))) = Ok ds'.
Proof.
  destruct (browse_tables_never_raises failing_warehouse sample_config
              [("fact", "temperature"); ("dim", "city")] initial_state)
    as (ds & Hds & _ & _ & Hhead).
  assert (Heq : ds = [Failed DatabaseError; Failed DatabaseError])
    by (vm_compute in Hds; congruence).
  rewrite <- Heq.
  apply (Hhead ("fact", "temperature") [("dim", "city")]). reflexivity.
Defined.

(** X16. Each table whose statement raises costs one connection: from a
    state whose open connections were opened in the past, the browser
    leaves open exactly as many more connections as it shows statement
    errors. *)
Theorem browse_tables_leaks_per_failure (w : Warehouse) (cfg : DBConfig)
    (tables : list (string * string)) (s : State) (ds : list display) (s' : State) :
  ids_in_past s = true ->
  browse_tables w cfg tables s = (Ok ds, s') ->
  length (open_conns s') =
    (length (open_conns s) + length (List.filter is_statement_failure ds))%nat /\
  ids_in_past s' = true.
Proof.
  revert s ds s'. induction tables as [|name rest IH]; intros s ds s' Hpast Hrun.
  - cbn in Hrun. inversion Hrun; subst. simpl. split; [lia | exact Hpast].
  - rewrite browse_tables_cons in Hrun.
    pose proof (invoke_open_conns w cfg (GetTableData (fst name) (snd name)) s Hpast)
      as [Hpast1 Hopen].
    destruct (browse_tables w cfg rest
                (snd (invoke w cfg (GetTableData (fst name) (snd name)) s)))
      as [[ds1|e1] s1] eqn:Hrest; [|discriminate].
    inversion Hrun; subst. clear Hrun.
    destruct (IH _ _ _ Hpast1 Hrest) as [Hlen Hp]. split; [|exact Hp].
    rewrite Hlen. cbn [invoke] in *.
    destruct (fst (get_table_data w cfg (fst name) (snd name) s))
      as [df|[]] eqn:Hf; rewrite Hopen; simpl; lia.
Qed.

Lemma browse_tables_leaks_per_failure_witness :
  length (open_conns
            (snd (browse_tables failing_warehouse sample_config
                    [("fact", "temperature"); ("dim", "city")] initial_state))) =
    (length (open_conns initial_state) +
     length (List.filter is_statement_failure
               [Failed DatabaseError; Failed DatabaseError]))%nat /\
  ids_in_past
    (snd (browse_tables failing_warehouse sample_config
            [("fact", "temperature"); ("dim", "city")] initial_state)) = true.
Proof.
  apply (browse_tables_leaks_per_failure failing_warehouse sample_config
           [("fact", "temperature"); ("dim", "city")] initial_state).
  - reflexivity.
  - vm_compute. reflexivity.
Defined.

Lemma invoke_ok_cached (w : Warehouse) (cfg : DBConfig) (c : call) (s : State) (v : Table) :
  fst (invoke w cfg c s) = Ok v ->
  cache (snd (invoke w cfg c s)) !! cache_key c = Some v.
Proof.
  intros Hv. pose proof (invoke_cache_effect w cfg c s) as Heff.
  destruct (cache s !! cache_key c) as [v'|] eqn:Hc.
  - rewrite (invoke_hit w cfg c s v' Hc) in Hv |- *. cbn [fst snd] in *.
    congruence.
  - rewrite Hv in Heff. rewrite Heff. apply lookup_insert_eq.
Qed.

(** After a run of the browser, every table it showed is in the cache. *)
Lemma browse_tables_shown_cached (w : Warehouse) (cfg : DBConfig)
    (tables : list (string * string)) (s : State) (ds : list display) (s' : State) :
  browse_tables w cfg tables s = (Ok ds, s') ->
  Forall2 (fun n d => forall df, d = Shown df ->
             cache s' !! cache_key (GetTableData (fst n) (snd n)) = Some df)
          tables ds.
Proof.
  revert s ds s'. induction tables as [|name rest IH]; intros s ds s' Hrun.
  - cbn in Hrun. inversion Hrun. constructor.
  - rewrite browse_tables_cons in Hrun.
    destruct (browse_tables_run w cfg rest
                (snd (invoke w cfg (GetTableData (fst name) (snd name)) s)))
      as (ds1 & Hrest & _).
    rewrite Hrest in Hrun. inversion Hrun; subst. clear Hrun.
    constructor.
    + intros df Hd.
      apply run_calls_keeps_entry.
      apply (invoke_ok_cached w cfg (GetTableData (fst name) (snd name)) s df).
      cbn [invoke] in *.
      destruct (fst (get_table_data w cfg (fst name) (snd name) s));
        [congruence | discriminate].
    + exact (IH _ _ _ Hrest).
Qed.

(** From a state that has the shown tables cached, the browser shows them
    again. *)
Lemma browse_tables_from_cache (w : Warehouse) (cfg : DBConfig)
    (tables : list (string * string)) (ds : list display) (s : State) :
  Forall2 (fun n d => forall df, d = Shown df ->
             cache s !! cache_key (GetTableData (fst n) (snd n)) = Some df)
          tables ds ->
  exists ds' s',
    browse_tables w cfg tables s = (Ok ds', s') /\
    Forall2 (fun d d' => forall df, d = Shown df -> d' = Shown df) ds ds' /\
    (forallb (fun d => negb (is_failed d)) ds = true -> ds' = ds /\ s' = s).
Proof.
  intros Hall. revert s Hall.
  revert ds. induction tables as [|name rest IH]; intros ds s Hall.
  - inversion Hall; subst. exists [], s. repeat split; constructor.
  - inversion Hall as [|? d ? ds0 Hd Hrest]; subst.
    rewrite browse_tables_cons.
    assert (Hkeep : Forall2 (fun n d0 => forall df, d0 = Shown df ->
        cache (snd (invoke w cfg (GetTableData (fst name) (snd name)) s))
          !! cache_key (GetTableData (fst n) (snd n)) = Some df) rest ds0).
    { clear -Hrest. induction Hrest as [|n d0 rest ds0 Hn _ IHr]; constructor.
      - intros df Hdf. apply invoke_keeps_entry. now apply Hn.
      - exact IHr. }
    destruct (IH ds0 _ Hkeep) as (ds' & s' & -> & Hrel & Hsame).
    eexists _, s'. split; [reflexivity|]. split.
    + constructor; [|exact Hrel].
      intros df Hdf. specialize (Hd df Hdf).
      now rewrite (invoke_hit w cfg _ s df Hd).
    + intros Hok. cbn [forallb] in Hok. apply andb_true_iff in Hok.
      destruct Hok as [Hd0 Hok].
      destruct d as [df|e]; [|discriminate].
      specialize (Hd df eq_refl).
      rewrite (invoke_hit w cfg _ s df Hd) in *. cbn [fst snd] in *.
      destruct (Hsame Hok) as [-> ->]. split; reflexivity.
Qed.

(** X17. A rerun of the browser shows again, with the same frame, every
    table it showed before; when no table had failed, the rerun shows the
    same expanders and touches nothing: no event, no round trip. *)
Theorem browse_tables_rerun (w : Warehouse) (cfg : DBConfig)
    (tables : list (string * string)) (s : State) (ds : list display) (s1 : State) :
  browse_tables w cfg tables s = (Ok ds, s1) ->
  exists ds' s2,
    browse_tables w cfg tables s1 = (Ok ds', s2) /\
    Forall2 (fun d d' => forall df, d = Shown df -> d' = Shown df) ds ds' /\
    (forallb (fun d => negb (is_failed d)) ds = true -> ds' = ds /\ s2 = s1).
Proof.
  intros Hrun. apply browse_tables_from_cache.
  exact (browse_tables_shown_cached w cfg tables s ds s1 Hrun).
Qed.

(** Two tables, against the warehouse whose answers change: the rerun shows
    the frames of the first run and leaves the state as it is. *)
Lemma browse_tables_rerun_witness :
  exists ds' s2,
    browse_tables changing_warehouse sample_config
      [("fact", "temperature"); ("dim", "city")]
      (snd (browse_tables changing_warehouse sample_config
              [("fact", "temperature"); ("dim", "city")] initial_state)) =
      (Ok ds', s2) /\
    Forall2 (fun d d' => forall df, d = Shown df -> d' = Shown df)
      [Shown [[CInt 1]]; Shown [[CInt 4]]] ds' /\
    (forallb (fun d => negb (is_failed d)) [Shown [[CInt 1]]; Shown [[CInt 4]]] = true ->
     ds' = [Shown [[CInt 1]]; Shown [[CInt 4]]] /\
     s2 = snd (browse_tables changing_warehouse sample_config
                 [("fact", "temperature"); ("dim", "city")] initial_state)).
Proof.
  apply (browse_tables_rerun changing_warehouse sample_config
           [("fact", "temperature"); ("dim", "city")] initial_state).
  vm_compute. reflexivity.
Defined.
(** ** What the configuration reads *)

(** X18. [DB_CONFIG] depends on five variables only: setting any other
    variable ([VC_API_KEY] among them) changes nothing; and with [DB_PORT]
    unset the port is 5432 and building the configuration cannot raise. *)
Theorem load_DB_CONFIG_reads_five_variables
    (int_of_str : string -> option Z) (env : gmap string string) :
  (forall name value : string,
     ~ In name ["DB_HOST"; "DB_PORT"; "DB_USER"; "DB_PASSWORD"; "DB_NAME"] ->
     load_DB_CONFIG int_of_str (<[name := value]> env) =
     load_DB_CONFIG int_of_str env) /\
  (env !! "DB_PORT" = None ->
   exists cfg, load_DB_CONFIG int_of_str env = Ok cfg /\ port cfg = 5432%Z).
Proof.
  split.
  - intros name value Hname. simpl in Hname.
    rewrite !load_DB_CONFIG_run. unfold getenv_port, getenv.
    rewrite !lookup_insert_ne by (intros Heq; apply Hname; rewrite Heq; auto 10).
    reflexivity.
  - intros Hport. rewrite load_DB_CONFIG_run. unfold getenv_port, getenv.
    rewrite Hport. eexists. split; reflexivity.
Qed.

Lemma load_DB_CONFIG_reads_five_variables_witness :
  load_DB_CONFIG (fun _ => None) (<["VC_API_KEY" := "k3y"]> env_without_host) =
    load_DB_CONFIG (fun _ => None) env_without_host /\
  exists cfg, load_DB_CONFIG (fun _ => None) env_without_host = Ok cfg /\
              port cfg = 5432%Z.
Proof.
  destruct (load_DB_CONFIG_reads_five_variables (fun _ => None) env_without_host)
    as [Hother Hport].
  split.
  - apply Hother. simpl. intros H.
    repeat (destruct H as [H | H]; [discriminate|]). exact H.
  - apply Hport. reflexivity.
Defined.

(** ** The sign of the mean metric *)

Lemma format_2f_sign (x : spec_float) :
  (exists rest, format_2f x = String "-"%char rest) <-> sign_bit x = true.
Proof.
  destruct x as [s|s| |s m e]; cbn [format_2f sign_bit].
  - destruct s; split; intros H.
    + reflexivity.
    + eexists. reflexivity.
    + destruct H as [rest H]. discriminate.
    + discriminate.
  - destruct s; split; intros H.
    + reflexivity.
    + eexists. reflexivity.
    + destruct H as [rest H]. discriminate.
    + discriminate.
  - split; intros H; [destruct H as [rest H]|]; discriminate.
  - destruct s; split; intros H.
    + reflexivity.
    + eexists. reflexivity.
    + destruct H as [rest H]. change ("" +:+ ?t) with t in H.
      destruct (decimal_head (hundredths m e / 100)) as (c & r & Ec & Hc).
      rewrite Ec, append_String in H. inversion H; subst.
      discriminate.
    + discriminate.
Qed.

(** X19. On a non-empty frame the mean metric starts with a minus sign
    exactly when the mean is negative in the sense of its sign bit: a
    negative mean that rounds to zero is shown as "-0.00". *)
Theorem mean_metric_sign (f : list Row) :
  f <> [] ->
  ((exists rest, snd (summary_metrics f) = String "-"%char rest) <->
   sign_bit (mean (List.map (fun r => temp (obs r)) f)) = true).
Proof.
  intros Hf. destruct f as [|r rest]; [contradiction|].
  cbn [summary_metrics snd]. apply format_2f_sign.
Qed.

(** One record at -0.001 degrees: the metric reads "-0.00". *)
Lemma mean_metric_sign_witness :
  (exists rest,
     snd (summary_metrics
            [mkRow (mkObservation 1 (PyFloat (float_of_decimal (-1) 3))
                      738000 "A" "BR" "Snow") Below10]) = String "-"%char rest) <->
  sign_bit (mean (List.map (fun r => temp (obs r))
                    [mkRow (mkObservation 1 (PyFloat (float_of_decimal (-1) 3))
                              738000 "A" "BR" "Snow") Below10])) = true.
Proof.
  apply (mean_metric_sign
           [mkRow (mkObservation 1 (PyFloat (float_of_decimal (-1) 3))
                     738000 "A" "BR" "Snow") Below10]).
  discriminate.
Defined.

Example mean_metric_minus_zero :
  snd (summary_metrics
         [mkRow (mkObservation 1 (PyFloat (float_of_decimal (-1) 3))
                   738000 "A" "BR" "Snow") Below10]) = "-0.00".
Proof. vm_compute. reflexivity. Qed.
(** ** The range filter *)

Lemma add_temp_range_buckets (loaded : list Observation) (df : list Row) :
  add_temp_range loaded = Ok df ->
  Forall (fun r => categorize_temperature (temp (obs r)) = Ok (temp_range r) /\
                   In (temp_range r) buckets) df.
Proof.
  intros Hdf.
  destruct (add_temp_range_total loaded) as (df' & Hdf' & _ & Hall).
  rewrite Hdf in Hdf'. inversion Hdf'; subst df'.
  apply List.Forall_forall. intros r Hr.
  rewrite List.Forall_forall in Hall. specialize (Hall r Hr).
  split; [exact Hall|].
  destruct (categorize_temperature_returns (temp (obs r))) as (b & Hb & Hin).
  rewrite Hall in Hb. inversion Hb; subst. exact Hin.
Qed.

(** X20. The five range options account for every record exactly once: on
    the frame of the tab, the numbers of records kept under each single
    range, the other three selections being fixed, add up to the number
    kept when all five ranges are selected. *)
Theorem range_options_partition
    (loaded : list Observation) (df : list Row)
    (sel_condition sel_country sel_city : list string) :
  add_temp_range loaded = Ok df ->
  (length (filtered_df df sel_condition sel_country sel_city [Below10]) +
   length (filtered_df df sel_condition sel_country sel_city [From10To20]) +
   length (filtered_df df sel_condition sel_country sel_city [From20To30]) +
   length (filtered_df df sel_condition sel_country sel_city [AtLeast30]) +
   length (filtered_df df sel_condition sel_country sel_city [Unknown]))%nat =
  length (filtered_df df sel_condition sel_country sel_city buckets).
Proof.
  intros Hdf. pose proof (add_temp_range_buckets loaded df Hdf) as Hall.
  clear Hdf. unfold filtered_df.
  induction Hall as [|r rest [_ Hin] _ IH]; [reflexivity|].
  cbn [List.filter].
  destruct (isin String.eqb (condition_name (obs r)) sel_condition &&
            isin String.eqb (country_name (obs r)) sel_country &&
            isin String.eqb (city_name (obs r)) sel_city) eqn:Hp;
    cbn [andb]; [|exact IH].
  unfold buckets in Hin. cbn [In] in Hin.
  destruct Hin as [<- | [<- | [<- | [<- | [<- | []]]]]];
    cbn; cbn in IH; lia.
Qed.

Lemma range_options_partition_witness :
  (length (filtered_df
             [mkRow (mkObservation 1 PyNone 738000 "A" "BR" "Rain") Unknown;
              mkRow (mkObservation 2 (PyFloat (float_of_int 20)) 738000 "B" "BR" "Clear")
                    From20To30]
             ["Rain"; "Clear"] ["BR"] ["A"; "B"] [Below10]) +
   length (filtered_df
             [mkRow (mkObservation 1 PyNone 738000 "A" "BR" "Rain") Unknown;
              mkRow (mkObservation 2 (PyFloat (float_of_int 20)) 738000 "B" "BR" "Clear")
                    From20To30]
             ["Rain"; "Clear"] ["BR"] ["A"; "B"] [From10To20]) +
   length (filtered_df
             [mkRow (mkObservation 1 PyNone 738000 "A" "BR" "Rain") Unknown;
              mkRow (mkObservation 2 (PyFloat (float_of_int 20)) 738000 "B" "BR" "Clear")
                    From20To30]
             ["Rain"; "Clear"] ["BR"] ["A"; "B"] [From20To30]) +
   length (filtered_df
             [mkRow (mkObservation 1 PyNone 738000 "A" "BR" "Rain") Unknown;
              mkRow (mkObservation 2 (PyFloat (float_of_int 20)) 738000 "B" "BR" "Clear")
                    From20To30]
             ["Rain"; "Clear"] ["BR"] ["A"; "B"] [AtLeast30]) +
   length (filtered_df
             [mkRow (mkObservation 1 PyNone 738000 "A" "BR" "Rain") Unknown;
              mkRow (mkObservation 2 (PyFloat (float_of_int 20)) 738000 "B" "BR" "Clear")
                    From20To30]
             ["Rain"; "Clear"] ["BR"] ["A"; "B"] [Unknown]))%nat =
  length (filtered_df
            [mkRow (mkObservation 1 PyNone 738000 "A" "BR" "Rain") Unknown;
             mkRow (mkObservation 2 (PyFloat (float_of_int 20)) 738000 "B" "BR" "Clear")
                   From20To30]
            ["Rain"; "Clear"] ["BR"] ["A"; "B"] buckets).
Proof.
  apply (range_options_partition
           [mkObservation 1 PyNone 738000 "A" "BR" "Rain";
            mkObservation 2 (PyFloat (float_of_int 20)) 738000 "B" "BR" "Clear"]).
  vm_compute. reflexivity.
Defined.

(** X21. The range filter means what its labels say: on the frame of the
    tab, every record kept under "<10°C" has a temperature below 10, under
    "10–20°C" one with [10 <= t < 20], under "20–30°C" one with
    [20 <= t < 30], under "≥30°C" one with [30 <= t]; none of them is
    null. *)
Theorem range_selection_bounds_temperatures
    (loaded : list Observation) (df : list Row)
    (sel_condition sel_country sel_city : list string) :
  add_temp_range loaded = Ok df ->
  (forall r, In r (filtered_df df sel_condition sel_country sel_city [Below10]) ->
     exists t, temp (obs r) = PyFloat t /\ SFltb t (float_of_int 10) = true) /\
  (forall r, In r (filtered_df df sel_condition sel_country sel_city [From10To20]) ->
     exists t, temp (obs r) = PyFloat t /\
               SFleb (float_of_int 10) t = true /\ SFltb t (float_of_int 20) = true) /\
  (forall r, In r (filtered_df df sel_condition sel_country sel_city [From20To30]) ->
     exists t, temp (obs r) = PyFloat t /\
               SFleb (float_of_int 20) t = true /\ SFltb t (float_of_int 30) = true) /\
  (forall r, In r (filtered_df df sel_condition sel_country sel_city [AtLeast30]) ->
     exists t, temp (obs r) = PyFloat t /\ SFleb (float_of_int 30) t = true).
Proof.
  intros Hdf. pose proof (add_temp_range_buckets loaded df Hdf) as Hall.
  rewrite List.Forall_forall in Hall.
  assert (Hkept : forall b r,
    In r (filtered_df df sel_condition sel_country sel_city [b]) ->
    categorize_temperature (temp (obs r)) = Ok b).
  { intros b r Hr. unfold filtered_df in Hr. apply filter_In in Hr.
    destruct Hr as [Hin Hp]. rewrite !andb_true_iff in Hp.
    destruct Hp as [_ Hb]. apply isin_In in Hb. destruct Hb as [-> | []].
    exact (proj1 (Hall r Hin)). }
  assert (Hfloat : forall b r,
    b <> Unknown ->
    categorize_temperature (temp (obs r)) = Ok b ->
    exists t, temp (obs r) = PyFloat t /\
              categorize_temperature (PyFloat t) = Ok b).
  { intros b r Hb Hc. destruct (temp (obs r)) as [|t] eqn:Ht.
    - cbn in Hc. inversion Hc. congruence.
    - exists t. split; [reflexivity | exact Hc]. }
  repeat split; intros r Hr; apply Hkept in Hr;
    (apply Hfloat in Hr; [|discriminate]); destruct Hr as (t & Ht & Hc);
    exists t; (split; [exact Ht|]);
    pose proof (categorize_bucket_range t) as (H1 & H2 & H3 & H4).
  - now apply H1.
  - now apply H2.
  - now apply H3.
  - now apply H4.
Qed.

Lemma range_selection_bounds_temperatures_witness :
  exists t,
    temp (obs (mkRow (mkObservation 2 (PyFloat (float_of_int 20)) 738000 "B" "BR"
                        "Clear") From20To30)) = PyFloat t /\
    SFleb (float_of_int 20) t = true /\ SFltb t (float_of_int 30) = true.
Proof.
  destruct (range_selection_bounds_temperatures
              [mkObservation 1 PyNone 738000 "A" "BR" "Rain";
               mkObservation 2 (PyFloat (float_of_int 20)) 738000 "B" "BR" "Clear"]
              [mkRow (mkObservation 1 PyNone 738000 "A" "BR" "Rain") Unknown;
               mkRow (mkObservation 2 (PyFloat (float_of_int 20)) 738000 "B" "BR" "Clear")
                     From20To30]
              ["Rain"; "Clear"] ["BR"] ["A"; "B"])
    as (_ & _ & H & _).
  - vm_compute. reflexivity.
  - apply H. vm_compute. left. reflexivity.
Defined.
